(** * OffloadUtils: netlink traffic-control requests of netd

    A shallow embedding of [server/OffloadUtils.cpp]: the three request
    builders ([doTcQdiscClsact], [tcFilterAddDevBpf], [tcFilterDelDev]) and
    the one-shot transport ([sendAndProcessNetlinkResponse]) that sends a
    request and decodes the kernel's acknowledgement.

    C structures are records; their image in memory is a [list byte] laid
    out as the compiler lays out the structure on a little-endian host
    (every Android ABI), with coqutil's [le_split] / [le_combine] for the
    integer fields.  Integers are [Z], with the wrap-around of the C types
    written out.  System calls are answers of a [kernel] record, one per
    call of the transaction.

    The file has three parts: the definitions (the embedding, then the
    vocabulary in which the properties are stated), the lemmas and
    theorems on the requests and the transport, and further properties
    of the code. *)

From Stdlib Require Import ZArith List String Bool Lia.
From coqutil Require Import Byte Word.LittleEndianList.
Import ListNotations.

Local Open Scope Z_scope.

(** * Part I: definitions *)

(** ** C integer conversions, strings and arrays *)

Module C.

Definition to_u16 (z : Z) : Z := z mod 2 ^ 16.
Definition to_u32 (z : Z) : Z := z mod 2 ^ 32.

(** Value of a 32-bit pattern read as [int]. *)
Definition to_int (z : Z) : Z :=
  let u := to_u32 z in if u <? 2 ^ 31 then u else u - 2 ^ 32.

(** [htons] on a little-endian host: the two bytes of a 16-bit value
    are exchanged. *)
Definition htons (x : Z) : Z :=
  Z.lor (Z.shiftl (Z.land x 255) 8) (Z.land (Z.shiftr x 8) 255).

(** The array that a string literal denotes: its characters followed by
    the terminating NUL; [sizeof] of it counts the NUL. *)
Definition literal (s : string) : list byte :=
  list_byte_of_string s ++ [Byte.x00].

Definition sizeof_literal (s : string) : Z :=
  Z.of_nat (List.length (literal s)).

(** [char str[n] = "..."]: the characters of the literal, the rest of
    the array zero. *)
Definition char_array (n : nat) (s : string) : list byte :=
  let cs := list_byte_of_string s in
  cs ++ repeat Byte.x00 (n - List.length cs).

(** [strncpy(dst, src, n)] seen from [dst]: the [n] bytes written.
    Characters of [src] are copied up to its first NUL or until [n]
    bytes are written; what remains of the [n] bytes is filled with
    NUL. *)
Fixpoint strncpy (src : list byte) (n : nat) {struct n} : list byte :=
  match n with
  | O => []
  | S n' =>
      match src with
      | [] => repeat Byte.x00 n
      | c :: rest =>
          if Byte.eqb c Byte.x00 then repeat Byte.x00 n
          else c :: strncpy rest n'
      end
  end.

(** The C string stored in an array: the bytes before the first NUL,
    [None] when the array holds no NUL. *)
Fixpoint c_str (a : list byte) : option (list byte) :=
  match a with
  | [] => None
  | c :: rest =>
      if Byte.eqb c Byte.x00 then Some []
      else option_map (cons c) (c_str rest)
  end.

End C.

(** ** Kernel interface: constants and macros of the Linux UAPI headers *)

Module Uapi.

(** <linux/netlink.h> *)
Definition NLMSG_ERROR : Z := 2.
Definition NLM_F_REQUEST : Z := 1.
Definition NLM_F_ACK : Z := 4.
Definition NLM_F_REPLACE : Z := 256.
Definition NLM_F_EXCL : Z := 512.
Definition NLM_F_CREATE : Z := 1024.

Definition NLMSG_ALIGNTO : Z := 4.
Definition NLMSG_ALIGN (len : Z) : Z :=
  Z.land (len + NLMSG_ALIGNTO - 1) (Z.lnot (NLMSG_ALIGNTO - 1)).

Definition NLA_ALIGNTO : Z := 4.
Definition NLA_ALIGN (len : Z) : Z :=
  Z.land (len + NLA_ALIGNTO - 1) (Z.lnot (NLA_ALIGNTO - 1)).

(** <linux/rtnetlink.h> *)
Definition RTM_NEWQDISC : Z := 36.
Definition RTM_DELQDISC : Z := 37.
Definition RTM_NEWTFILTER : Z := 44.
Definition RTM_DELTFILTER : Z := 45.
Definition TCA_KIND : Z := 1.
Definition TCA_OPTIONS : Z := 2.

(** <linux/pkt_sched.h> *)
Definition TC_H_MAJ_MASK : Z := 0xFFFF0000.
Definition TC_H_MIN_MASK : Z := 0x0000FFFF.
Definition TC_H_MAKE (maj min : Z) : Z :=
  Z.lor (Z.land maj TC_H_MAJ_MASK) (Z.land min TC_H_MIN_MASK).
Definition TC_H_UNSPEC : Z := 0.
Definition TC_H_INGRESS : Z := 0xFFFFFFF1.
Definition TC_H_CLSACT : Z := TC_H_INGRESS.
Definition TC_H_MIN_INGRESS : Z := 0xFFF2.
Definition TC_H_MIN_EGRESS : Z := 0xFFF3.

(** <linux/pkt_cls.h> *)
Definition TCA_BPF_FD : Z := 6.
Definition TCA_BPF_NAME : Z := 7.
Definition TCA_BPF_FLAGS : Z := 8.
Definition TCA_BPF_FLAG_ACT_DIRECT : Z := 1.

(** <linux/if_ether.h>, <sys/socket.h>, <errno.h> *)
Definition ETH_P_IP : Z := 0x0800.
Definition ETH_P_IPV6 : Z := 0x86DD.
Definition AF_UNSPEC : Z := 0.
Definition EBADMSG : Z := 74.
Definition EMSGSIZE : Z := 90.

(** [struct nlmsghdr] *)
Record nlmsghdr := {
  nlmsg_len : Z;    (* __u32 *)
  nlmsg_type : Z;   (* __u16 *)
  nlmsg_flags : Z;  (* __u16 *)
  nlmsg_seq : Z;    (* __u32 *)
  nlmsg_pid : Z     (* __u32 *)
}.

Definition sizeof_nlmsghdr : Z := 4 + 2 + 2 + 4 + 4.

Definition bytes_of_nlmsghdr (h : nlmsghdr) : list byte :=
  le_split 4 (nlmsg_len h) ++ le_split 2 (nlmsg_type h)
  ++ le_split 2 (nlmsg_flags h) ++ le_split 4 (nlmsg_seq h)
  ++ le_split 4 (nlmsg_pid h).

(** [struct nlmsgerr]: [int error; struct nlmsghdr msg]. *)
Definition sizeof_nlmsgerr : Z := 4 + sizeof_nlmsghdr.

Definition NLMSG_HDRLEN : Z := NLMSG_ALIGN sizeof_nlmsghdr.
Definition NLMSG_LENGTH (len : Z) : Z := len + NLMSG_HDRLEN.
Definition NLMSG_SPACE (len : Z) : Z := NLMSG_ALIGN (NLMSG_LENGTH len).

(** [struct tcmsg] *)
Record tcmsg := {
  tcm_family : Z;   (* unsigned char *)
  tcm__pad1 : Z;    (* unsigned char *)
  tcm__pad2 : Z;    (* unsigned short *)
  tcm_ifindex : Z;  (* int *)
  tcm_handle : Z;   (* __u32 *)
  tcm_parent : Z;   (* __u32 *)
  tcm_info : Z      (* __u32 *)
}.

Definition sizeof_tcmsg : Z := 1 + 1 + 2 + 4 + 4 + 4 + 4.

Definition bytes_of_tcmsg (t : tcmsg) : list byte :=
  le_split 1 (tcm_family t) ++ le_split 1 (tcm__pad1 t)
  ++ le_split 2 (tcm__pad2 t) ++ le_split 4 (tcm_ifindex t)
  ++ le_split 4 (tcm_handle t) ++ le_split 4 (tcm_parent t)
  ++ le_split 4 (tcm_info t).

(** [struct nlattr] *)
Record nlattr := {
  nla_len : Z;      (* __u16 *)
  nla_type : Z      (* __u16 *)
}.

Definition sizeof_nlattr : Z := 2 + 2.
Definition NLA_HDRLEN : Z := NLA_ALIGN sizeof_nlattr.

Definition bytes_of_nlattr (a : nlattr) : list byte :=
  le_split 2 (nla_len a) ++ le_split 2 (nla_type a).

End Uapi.

Import Uapi.
(** ** Memory access *)

(** [load buf off n]: the [n]-byte little-endian integer stored at byte
    offset [off] of the object [buf]; [None] when the access leaves the
    object. *)
Definition load (buf : list byte) (off n : nat) : option Z :=
  if (off + n <=? List.length buf)%nat
  then Some (le_combine (firstn n (skipn off buf)))
  else None.

(** [slice buf off n]: the [n] bytes at offset [off], [None] when they
    are not all inside [buf]. *)
Definition slice (buf : list byte) (off n : nat) : option (list byte) :=
  if (off + n <=? List.length buf)%nat
  then Some (firstn n (skipn off buf))
  else None.

Notation "x <- e ;; k" :=
  (match e with Some x => k | None => None end)
  (at level 61, e at next level, right associativity).

(** ** The transaction transport *)

(** Result of a system call: its value, or the [errno] it left (never 0). *)
Inductive sysret (A : Type) : Type :=
| Ok (a : A)
| Errno (err : positive).
Arguments Ok {A} a.
Arguments Errno {A} err.

(** What the operating system answers during one transaction.  [sys_send]
    is given the bytes handed over and answers the number of bytes
    transferred; [sys_recv] answers the datagram the kernel has queued for
    the socket. *)
Record kernel := {
  sys_socket : sysret Z;
  sys_setsockopt : sysret unit;
  sys_bind : sysret unit;
  sys_connect : sysret unit;
  sys_send : list byte -> sysret nat;
  sys_recv : sysret (list byte)
}.

(** Layout of the local [resp] structure: [nlmsghdr h; nlmsgerr e;
    char buf[256]]. *)
Definition sizeof_resp : Z := sizeof_nlmsghdr + sizeof_nlmsgerr + 256.
Definition offsetof_nlmsg_len : nat := 0.
Definition offsetof_nlmsg_type : nat := 4.
Definition offsetof_resp_e : nat := Z.to_nat sizeof_nlmsghdr.
Definition offsetof_error : nat := 0.

(** [recv(fd, &resp, sizeof(resp), MSG_TRUNC)] on a datagram: the return
    value is the length of the whole datagram, and [resp] receives as
    much of it as fits, the rest of [resp] keeping its contents. *)
Definition recv_into (resp dgram : list byte) : Z * list byte :=
  let got := firstn (List.length resp) dgram in
  (Z.of_nat (List.length dgram), got ++ skipn (List.length got) resp).

(** [sendAndProcessNetlinkResponse(req, len)].  The result is the [int]
    returned, or [None] if the function reads outside [req] or [resp]. *)
Definition sendAndProcessNetlinkResponse
    (k : kernel) (req : list byte) (len : Z) : option Z :=
  match sys_socket k with
  | Errno err => Some (- Z.pos err)
  | Ok fd =>
  (* a failure of setsockopt is logged only *)
  match sys_bind k with
  | Errno err => Some (- Z.pos err)
  | Ok _ =>
  match sys_connect k with
  | Errno err => Some (- Z.pos err)
  | Ok _ =>
  sent <- slice req 0 (Z.to_nat len) ;;
  match sys_send k sent with
  | Errno err => Some (- Z.pos err)
  | Ok rv =>
  if negb (Z.of_nat rv =? len) then Some (- EMSGSIZE) else
  let resp := repeat Byte.x00 (Z.to_nat sizeof_resp) in
  match sys_recv k with
  | Errno err => Some (- Z.pos err)
  | Ok dgram =>
  let '(rv, resp) := recv_into resp dgram in
  if rv <? NLMSG_SPACE sizeof_nlmsgerr then Some (- EMSGSIZE) else
  nlmsg_len <- load resp offsetof_nlmsg_len 4 ;;
  if negb (nlmsg_len =? C.to_u32 rv) then Some (- EBADMSG) else
  nlmsg_type <- load resp offsetof_nlmsg_type 2 ;;
  if negb (nlmsg_type =? NLMSG_ERROR) then Some (- EBADMSG) else
  error <- load resp (offsetof_resp_e + offsetof_error) 4 ;;
  Some (C.to_int error)
  end end end end end.

(** ** Request structures *)

(** [struct { nlattr attr; char str[...]; }] *)
Record nla_str := {
  s_attr : nlattr;
  s_str : list byte
}.

(** [struct { nlattr attr; __u32 u32; }] *)
Record nla_u32 := {
  u_attr : nlattr;
  u_u32 : Z
}.

Definition bytes_of_nla_str (a : nla_str) : list byte :=
  bytes_of_nlattr (s_attr a) ++ s_str a.

Definition bytes_of_nla_u32 (a : nla_u32) : list byte :=
  bytes_of_nlattr (u_attr a) ++ le_split 4 (u_u32 a).

Definition sizeof_nla_u32 : Z := sizeof_nlattr + 4.

(** The request of [doTcQdiscClsact]. *)
Record qdisc_req := {
  q_n : nlmsghdr;
  q_t : tcmsg;
  q_kind : nla_str
}.

Definition bytes_of_qdisc_req (r : qdisc_req) : list byte :=
  bytes_of_nlmsghdr (q_n r) ++ bytes_of_tcmsg (q_t r)
  ++ bytes_of_nla_str (q_kind r).

(** The [options] member of the request of [tcFilterAddDevBpf]. *)
Record bpf_options := {
  o_attr : nlattr;
  o_fd : nla_u32;
  o_name : nla_str;
  o_flags : nla_u32
}.

Definition bytes_of_bpf_options (o : bpf_options) : list byte :=
  bytes_of_nlattr (o_attr o) ++ bytes_of_nla_u32 (o_fd o)
  ++ bytes_of_nla_str (o_name o) ++ bytes_of_nla_u32 (o_flags o).

(** The request of [tcFilterAddDevBpf]. *)
Record filter_add_req := {
  f_n : nlmsghdr;
  f_t : tcmsg;
  f_kind : nla_str;
  f_options : bpf_options
}.

Definition bytes_of_filter_add_req (r : filter_add_req) : list byte :=
  bytes_of_nlmsghdr (f_n r) ++ bytes_of_tcmsg (f_t r)
  ++ bytes_of_nla_str (f_kind r) ++ bytes_of_bpf_options (f_options r).

(** The request of [tcFilterDelDev]. *)
Record filter_del_req := {
  d_n : nlmsghdr;
  d_t : tcmsg
}.

Definition bytes_of_filter_del_req (r : filter_del_req) : list byte :=
  bytes_of_nlmsghdr (d_n r) ++ bytes_of_tcmsg (d_t r).

(** ** Program names *)

(** Modelled from the spec: the macros [CLAT_INGRESS_PROG_RAWIP_NAME],
    [CLAT_INGRESS_PROG_ETHER_NAME], [CLAT_EGRESS_PROG_RAWIP_NAME] and
    [CLAT_EGRESS_PROG_ETHER_NAME] are defined in a header outside
    OffloadUtils.cpp.  Their values are read off the comments of
    [tcFilterAddDevBpf], which give the expansion of each [NAME_*] macro
    (the value below followed by [FSOBJ_SUFFIX]). *)
Definition CLAT_INGRESS_PROG_RAWIP_NAME : string :=
  "prog_clatd_schedcls_ingress_clat_rawip".
Definition CLAT_INGRESS_PROG_ETHER_NAME : string :=
  "prog_clatd_schedcls_ingress_clat_ether".
Definition CLAT_EGRESS_PROG_RAWIP_NAME : string :=
  "prog_clatd_schedcls_egress_clat_rawip".
Definition CLAT_EGRESS_PROG_ETHER_NAME : string :=
  "prog_clatd_schedcls_egress_clat_ether".

Definition FSOBJ_SUFFIX : string := ":[*fsobj]".

Definition NAME_RX_RAWIP : string := CLAT_INGRESS_PROG_RAWIP_NAME ++ FSOBJ_SUFFIX.
Definition NAME_RX_ETHER : string := CLAT_INGRESS_PROG_ETHER_NAME ++ FSOBJ_SUFFIX.
Definition NAME_TX_RAWIP : string := CLAT_EGRESS_PROG_RAWIP_NAME ++ FSOBJ_SUFFIX.
Definition NAME_TX_ETHER : string := CLAT_EGRESS_PROG_ETHER_NAME ++ FSOBJ_SUFFIX.

Definition name_rx_rawip : list byte := C.literal NAME_RX_RAWIP.
Definition name_rx_ether : list byte := C.literal NAME_RX_ETHER.
Definition name_tx_rawip : list byte := C.literal NAME_TX_RAWIP.
Definition name_tx_ether : list byte := C.literal NAME_TX_ETHER.

Definition sizeof_array (a : list byte) : Z := Z.of_nat (List.length a).

Definition ASCIIZ_MAXLEN_NAME_RX : Z :=
  if sizeof_array name_rx_rawip >? sizeof_array name_rx_ether
  then sizeof_array name_rx_rawip else sizeof_array name_rx_ether.
Definition ASCIIZ_MAXLEN_NAME_TX : Z :=
  if sizeof_array name_tx_rawip >? sizeof_array name_tx_ether
  then sizeof_array name_tx_rawip else sizeof_array name_tx_ether.
Definition ASCIIZ_MAXLEN_NAME : Z :=
  if ASCIIZ_MAXLEN_NAME_RX >? ASCIIZ_MAXLEN_NAME_TX
  then ASCIIZ_MAXLEN_NAME_RX else ASCIIZ_MAXLEN_NAME_TX.

Definition NAME_RX (ethernet : bool) : string :=
  if ethernet then NAME_RX_ETHER else NAME_RX_RAWIP.
Definition NAME_TX (ethernet : bool) : string :=
  if ethernet then NAME_TX_ETHER else NAME_TX_RAWIP.
Definition NAME (ethernet ingress : bool) : string :=
  if ingress then NAME_RX ethernet else NAME_TX ethernet.

(** ** Sizes of the request structures *)

Definition CLSACT : string := "clsact".
Definition ASCIIZ_LEN_CLSACT : Z := C.sizeof_literal CLSACT.
Definition BPF : string := "bpf".
Definition ASCIIZ_LEN_BPF : Z := C.sizeof_literal BPF.

Definition sizeof_qdisc_kind_str : Z := NLMSG_ALIGN ASCIIZ_LEN_CLSACT.
Definition sizeof_qdisc_kind : Z := sizeof_nlattr + sizeof_qdisc_kind_str.
Definition sizeof_qdisc_req : Z :=
  sizeof_nlmsghdr + sizeof_tcmsg + sizeof_qdisc_kind.

Definition sizeof_filter_kind_str : Z := NLMSG_ALIGN ASCIIZ_LEN_BPF.
Definition sizeof_filter_kind : Z := sizeof_nlattr + sizeof_filter_kind_str.
Definition sizeof_name_str : Z := NLMSG_ALIGN ASCIIZ_MAXLEN_NAME.
Definition sizeof_name : Z := sizeof_nlattr + sizeof_name_str.
Definition sizeof_options : Z :=
  sizeof_nlattr + sizeof_nla_u32 + sizeof_name + sizeof_nla_u32.
Definition sizeof_filter_add_req : Z :=
  sizeof_nlmsghdr + sizeof_tcmsg + sizeof_filter_kind + sizeof_options.

Definition sizeof_filter_del_req : Z := sizeof_nlmsghdr + sizeof_tcmsg.

(** ** The request builders *)

Section Builders.

(** [NETLINK_REQUEST_FLAGS] is declared in NetlinkCommands.h, outside
    OffloadUtils.cpp: the builders are parametrised by its value. *)
Variable NETLINK_REQUEST_FLAGS : Z.

Definition doTcQdiscClsact_req (ifIndex nlMsgType nlMsgFlags : Z) : qdisc_req :=
  {| q_n := {| nlmsg_len := sizeof_qdisc_req;
               nlmsg_type := nlMsgType;
               nlmsg_flags := C.to_u16 (Z.lor NETLINK_REQUEST_FLAGS nlMsgFlags);
               nlmsg_seq := 0;
               nlmsg_pid := 0 |};
     q_t := {| tcm_family := AF_UNSPEC;
               tcm__pad1 := 0;
               tcm__pad2 := 0;
               tcm_ifindex := ifIndex;
               tcm_handle := TC_H_MAKE TC_H_CLSACT 0;
               tcm_parent := TC_H_CLSACT;
               tcm_info := 0 |};
     q_kind := {| s_attr := {| nla_len := NLA_HDRLEN + ASCIIZ_LEN_CLSACT;
                               nla_type := TCA_KIND |};
                  s_str := C.char_array (Z.to_nat sizeof_qdisc_kind_str) CLSACT |} |}.

Definition doTcQdiscClsact (k : kernel) (ifIndex nlMsgType nlMsgFlags : Z)
  : option Z :=
  let req := doTcQdiscClsact_req ifIndex nlMsgType nlMsgFlags in
  sendAndProcessNetlinkResponse k (bytes_of_qdisc_req req) sizeof_qdisc_req.

(** The structure as initialised, before the name is copied in. *)
Definition tcFilterAddDevBpf_init (ifIndex bpfFd : Z) (ingress ipv6 : bool)
  : filter_add_req :=
  let prio := 1 in
  {| f_n := {| nlmsg_len := sizeof_filter_add_req;
               nlmsg_type := RTM_NEWTFILTER;
               nlmsg_flags :=
                 Z.lor (Z.lor NETLINK_REQUEST_FLAGS NLM_F_EXCL) NLM_F_CREATE;
               nlmsg_seq := 0;
               nlmsg_pid := 0 |};
     f_t := {| tcm_family := AF_UNSPEC;
               tcm__pad1 := 0;
               tcm__pad2 := 0;
               tcm_ifindex := ifIndex;
               tcm_handle := TC_H_UNSPEC;
               tcm_parent :=
                 TC_H_MAKE TC_H_CLSACT
                   (if ingress then TC_H_MIN_INGRESS else TC_H_MIN_EGRESS);
               tcm_info :=
                 Z.lor (C.to_u32 (Z.shiftl prio 16))
                   (C.to_u32 (if ipv6 then C.htons ETH_P_IPV6
                              else C.htons ETH_P_IP)) |};
     f_kind := {| s_attr := {| nla_len := sizeof_filter_kind;
                               nla_type := TCA_KIND |};
                  s_str := C.char_array (Z.to_nat sizeof_filter_kind_str) BPF |};
     f_options :=
       {| o_attr := {| nla_len := sizeof_options; nla_type := TCA_OPTIONS |};
          o_fd := {| u_attr := {| nla_len := sizeof_nla_u32;
                                  nla_type := TCA_BPF_FD |};
                     u_u32 := C.to_u32 bpfFd |};
          o_name := {| s_attr := {| nla_len := sizeof_name;
                                    nla_type := TCA_BPF_NAME |};
                       s_str := C.char_array (Z.to_nat sizeof_name_str)
                                  "placeholder" |};
          o_flags := {| u_attr := {| nla_len := sizeof_nla_u32;
                                     nla_type := TCA_BPF_FLAGS |};
                        u_u32 := TCA_BPF_FLAG_ACT_DIRECT |} |} |}.

(** [strncpy(req.options.name.str, src, n)]: the first [n] bytes of the
    member are overwritten. *)
Definition strncpy_name_str (req : filter_add_req) (src : list byte) (n : nat)
  : filter_add_req :=
  let o := f_options req in
  let nm := o_name o in
  {| f_n := f_n req;
     f_t := f_t req;
     f_kind := f_kind req;
     f_options :=
       {| o_attr := o_attr o;
          o_fd := o_fd o;
          o_name := {| s_attr := s_attr nm;
                       s_str := C.strncpy src n ++ skipn n (s_str nm) |};
          o_flags := o_flags o |} |}.

Definition tcFilterAddDevBpf_req
    (ifIndex bpfFd : Z) (ethernet ingress ipv6 : bool) : filter_add_req :=
  let req := tcFilterAddDevBpf_init ifIndex bpfFd ingress ipv6 in
  strncpy_name_str req (C.literal (NAME ethernet ingress))
    (Z.to_nat sizeof_name_str).

Definition tcFilterAddDevBpf
    (k : kernel) (ifIndex bpfFd : Z) (ethernet ingress ipv6 : bool) : option Z :=
  let req := tcFilterAddDevBpf_req ifIndex bpfFd ethernet ingress ipv6 in
  sendAndProcessNetlinkResponse k (bytes_of_filter_add_req req)
    sizeof_filter_add_req.

Definition tcFilterDelDev_req (ifIndex : Z) (ingress : bool) (prio proto : Z)
  : filter_del_req :=
  {| d_n := {| nlmsg_len := sizeof_filter_del_req;
               nlmsg_type := RTM_DELTFILTER;
               nlmsg_flags := NETLINK_REQUEST_FLAGS;
               nlmsg_seq := 0;
               nlmsg_pid := 0 |};
     d_t := {| tcm_family := AF_UNSPEC;
               tcm__pad1 := 0;
               tcm__pad2 := 0;
               tcm_ifindex := ifIndex;
               tcm_handle := TC_H_UNSPEC;
               tcm_parent :=
                 TC_H_MAKE TC_H_CLSACT
                   (if ingress then TC_H_MIN_INGRESS else TC_H_MIN_EGRESS);
               tcm_info :=
                 C.to_u32 (Z.lor (Z.shiftl prio 16) (C.htons proto)) |} |}.

Definition tcFilterDelDev
    (k : kernel) (ifIndex : Z) (ingress : bool) (prio proto : Z) : option Z :=
  let req := tcFilterDelDev_req ifIndex ingress prio proto in
  sendAndProcessNetlinkResponse k (bytes_of_filter_del_req req)
    sizeof_filter_del_req.

End Builders.

(** ** The three uses of [doTcQdiscClsact]

    The comment above [doTcQdiscClsact] lists the message type and flags
    of each use:
      ADD:     RTM_NEWQDISC, NLM_F_EXCL|NLM_F_CREATE
      REPLACE: RTM_NEWQDISC, NLM_F_CREATE|NLM_F_REPLACE
      DEL:     RTM_DELQDISC, 0 *)
Inductive qdisc_op := QdiscAdd | QdiscReplace | QdiscDel.

Definition nlMsgType_of (op : qdisc_op) : Z :=
  match op with
  | QdiscAdd | QdiscReplace => RTM_NEWQDISC
  | QdiscDel => RTM_DELQDISC
  end.

Definition nlMsgFlags_of (op : qdisc_op) : Z :=
  match op with
  | QdiscAdd => Z.lor NLM_F_EXCL NLM_F_CREATE
  | QdiscReplace => Z.lor NLM_F_CREATE NLM_F_REPLACE
  | QdiscDel => 0
  end.

Definition qdisc_request (NETLINK_REQUEST_FLAGS : Z) (op : qdisc_op) (ifIndex : Z)
  : list byte :=
  bytes_of_qdisc_req
    (doTcQdiscClsact_req NETLINK_REQUEST_FLAGS ifIndex
       (nlMsgType_of op) (nlMsgFlags_of op)).

(** ** Reading a request back

    The attributes of a message as a reader of the bytes finds them
    (the kernel's [nla_ok] / [nla_next] walk): at offset [off] a 16-bit
    length and a 16-bit type, then [length - NLA_HDRLEN] bytes of payload;
    the next attribute starts [NLA_ALIGN(length)] bytes after [off]. *)
Record attribute := {
  a_off : nat;
  a_len : Z;
  a_type : Z;
  a_payload : list byte
}.

Fixpoint nla_walk (fuel : nat) (buf : list byte) (off lim : nat)
  : option (list attribute) :=
  match fuel with
  | O => None
  | S fuel' =>
      if (lim <=? off)%nat then Some [] else
      len <- load buf off 2 ;;
      ty <- load buf (off + 2) 2 ;;
      if (len <? NLA_HDRLEN) || (Z.of_nat (lim - off) <? len) then None else
      payload <- slice buf (off + Z.to_nat NLA_HDRLEN) (Z.to_nat (len - NLA_HDRLEN)) ;;
      rest <- nla_walk fuel' buf (off + Z.to_nat (NLA_ALIGN len)) lim ;;
      Some ({| a_off := off; a_len := len; a_type := ty; a_payload := payload |}
            :: rest)
  end.

(** Attributes found in the byte range [off, lim) of [buf]. *)
Definition attributes (buf : list byte) (off lim : nat) : option (list attribute) :=
  nla_walk (S (List.length buf)) buf off lim.

(** Attributes nested in the payload of [a]. *)
Definition nested (buf : list byte) (a : attribute) : option (list attribute) :=
  attributes buf (a_off a + Z.to_nat NLA_HDRLEN) (a_off a + Z.to_nat (a_len a)).

Definition find_attribute (ty : Z) (l : list attribute) : option attribute :=
  find (fun a => a_type a =? ty) l.

Definition padded_size (a : attribute) : Z := NLA_ALIGN (a_len a).

Definition aligned (a : attribute) : Prop := (a_off a mod 4 = 0)%nat.

(** An attribute as it lies in a message: header, payload, padding. *)
Definition bytes_of_attribute (a : attribute) : list byte :=
  le_split 2 (a_len a) ++ le_split 2 (a_type a) ++ a_payload a
  ++ repeat Byte.x00 (Z.to_nat (padded_size a - a_len a)).

(** Offsets in the fixed part of every request, [nlmsghdr] then [tcmsg],
    and of the name field of the filter-attach request. *)
Definition offsetof_nlmsg_flags : nat := 6.
Definition offsetof_tcm_parent : nat := Z.to_nat sizeof_nlmsghdr + 12.
Definition offsetof_tcm_info : nat := Z.to_nat sizeof_nlmsghdr + 16.
Definition offsetof_attrs : nat := Z.to_nat (sizeof_nlmsghdr + sizeof_tcmsg).
Definition offsetof_name_str : nat :=
  Z.to_nat (sizeof_nlmsghdr + sizeof_tcmsg + sizeof_filter_kind
            + sizeof_nlattr + sizeof_nla_u32 + sizeof_nlattr).

(** Whether a request carries an attribute of type [ty] after its fixed
    part. *)
Definition has_attribute (ty : Z) (buf : list byte) : bool :=
  match attributes buf offsetof_attrs (List.length buf) with
  | Some l => existsb (fun a => a_type a =? ty) l
  | None => false
  end.

(** The sub-attributes of the "options" attribute of a request. *)
Definition read_options (buf : list byte) : option (list attribute) :=
  top <- attributes buf offsetof_attrs (List.length buf) ;;
  options <- find_attribute TCA_OPTIONS top ;;
  nested buf options.

(** The name attribute read back from a filter-attach request. *)
Definition read_name_attribute (buf : list byte) : option attribute :=
  sub <- read_options buf ;;
  find_attribute TCA_BPF_NAME sub.

Definition read_u32_attribute (ty : Z) (l : option (list attribute)) : option Z :=
  l <- l ;;
  a <- find_attribute ty l ;;
  load (a_payload a) 0 4.

Definition read_string_attribute (ty : Z) (l : option (list attribute))
  : option (list byte) :=
  l <- l ;;
  a <- find_attribute ty l ;;
  C.c_str (a_payload a).

(** The program name found in the name field of a request. *)
Definition read_name (buf : list byte) : option (list byte) :=
  str <- slice buf offsetof_name_str (Z.to_nat sizeof_name_str) ;;
  C.c_str str.

(** ** The attributes of the requests, as they are to be read back *)

Definition qdisc_kind_attribute : attribute :=
  {| a_off := offsetof_attrs;
     a_len := NLA_HDRLEN + C.sizeof_literal CLSACT;
     a_type := TCA_KIND;
     a_payload := C.literal CLSACT |}.

Definition filter_kind_attribute : attribute :=
  {| a_off := offsetof_attrs;
     a_len := NLA_HDRLEN + C.sizeof_literal BPF;
     a_type := TCA_KIND;
     a_payload := C.literal BPF |}.

Definition bpf_fd_attribute (bpfFd : Z) : attribute :=
  {| a_off := 48;
     a_len := NLA_HDRLEN + 4;
     a_type := TCA_BPF_FD;
     a_payload := le_split 4 (C.to_u32 bpfFd) |}.

(** The payload of the name attribute is the whole name field: the name,
    its NUL, and zero bytes up to the size of the field. *)
Definition name_field (ethernet ingress : bool) : list byte :=
  let lit := C.literal (NAME ethernet ingress) in
  lit ++ repeat Byte.x00 (Z.to_nat sizeof_name_str - List.length lit).

Definition bpf_name_attribute (ethernet ingress : bool) : attribute :=
  {| a_off := 56;
     a_len := NLA_HDRLEN + sizeof_name_str;
     a_type := TCA_BPF_NAME;
     a_payload := name_field ethernet ingress |}.

Definition bpf_flags_attribute : attribute :=
  {| a_off := 108;
     a_len := NLA_HDRLEN + 4;
     a_type := TCA_BPF_FLAGS;
     a_payload := le_split 4 TCA_BPF_FLAG_ACT_DIRECT |}.

Definition options_attribute (bpfFd : Z) (ethernet ingress : bool) : attribute :=
  let fd := bpf_fd_attribute bpfFd in
  let name := bpf_name_attribute ethernet ingress in
  let flags := bpf_flags_attribute in
  {| a_off := 44;
     a_len := NLA_HDRLEN + padded_size fd + padded_size name + padded_size flags;
     a_type := TCA_OPTIONS;
     a_payload := bytes_of_attribute fd ++ bytes_of_attribute name
                  ++ bytes_of_attribute flags |}.

(** ** Vocabulary of the properties: requests *)

(** A call [call] of a builder sends the request [buf] whole: the length
    given to the transport is the number of bytes of [buf], the transport
    hands all of them to [send], and the header's [nlmsg_len] read back
    from the bytes is that number. *)
Definition sends_exactly (call : kernel -> option Z) (buf : list byte) : Prop :=
  (forall k,
      call k = sendAndProcessNetlinkResponse k buf (Z.of_nat (List.length buf)))
  /\ slice buf 0 (List.length buf) = Some buf
  /\ load buf offsetof_nlmsg_len 4 = Some (Z.of_nat (List.length buf)).

(** Two requests that agree in length and on every byte outside the
    [nlmsg_flags] field of the header. *)
Definition same_but_flags (a b : list byte) : Prop :=
  List.length a = List.length b
  /\ firstn offsetof_nlmsg_flags a = firstn offsetof_nlmsg_flags b
  /\ skipn (offsetof_nlmsg_flags + 2) a = skipn (offsetof_nlmsg_flags + 2) b.

(** Two requests that agree in length and on every byte outside the
    [nlmsg_type] and [nlmsg_flags] fields of the header. *)
Definition same_but_type_and_flags (a b : list byte) : Prop :=
  List.length a = List.length b
  /\ firstn offsetof_nlmsg_type a = firstn offsetof_nlmsg_type b
  /\ skipn (offsetof_nlmsg_flags + 2) a = skipn (offsetof_nlmsg_flags + 2) b.

(** The statement that the Delete request has no "kind" attribute. *)
Definition delete_omits_kind (NETLINK_REQUEST_FLAGS ifIndex : Z) : Prop :=
  has_attribute TCA_KIND (qdisc_request NETLINK_REQUEST_FLAGS QdiscDel ifIndex)
  = false.

(** The statement that the length of the name attribute is the header
    size plus the size of the name with its NUL. *)
Definition name_length_is_unpadded
    (NETLINK_REQUEST_FLAGS ifIndex bpfFd : Z) (ethernet ingress ipv6 : bool)
  : Prop :=
  option_map a_len
    (read_name_attribute
       (bytes_of_filter_add_req
          (tcFilterAddDevBpf_req NETLINK_REQUEST_FLAGS ifIndex bpfFd
             ethernet ingress ipv6)))
  = Some (NLA_HDRLEN + C.sizeof_literal (NAME ethernet ingress)).

(** ** Vocabulary of the properties: the transport *)

(** One transaction on the request [req], sent whole. *)
Definition transact (k : kernel) (req : list byte) : option Z :=
  sendAndProcessNetlinkResponse k req (Z.of_nat (List.length req)).

Definition succeeded {A : Type} (r : sysret A) : Prop :=
  match r with
  | Ok _ => True
  | Errno _ => False
  end.

(** The socket was opened, bound and connected. *)
Definition connected (k : kernel) : Prop :=
  succeeded (sys_socket k) /\ succeeded (sys_bind k)
  /\ succeeded (sys_connect k).

(** The two ways [send] lets the transaction down, with the code each is
    to be reported by: [send] fails with [err], or transfers fewer bytes
    than the request has. *)
Inductive send_failure (k : kernel) (req : list byte) : Z -> Prop :=
| send_fails err :
    sys_send k req = Errno err ->
    send_failure k req (- Z.pos err)
| send_short n :
    sys_send k req = Ok n ->
    (n < List.length req)%nat ->
    send_failure k req (- EMSGSIZE).

(** The failures of the operating system during a transaction, with the
    code each is reported by. *)
Inductive os_failure (k : kernel) (req : list byte) : Z -> Prop :=
| socket_fails err :
    sys_socket k = Errno err ->
    os_failure k req (- Z.pos err)
| bind_fails err :
    succeeded (sys_socket k) ->
    sys_bind k = Errno err ->
    os_failure k req (- Z.pos err)
| connect_fails err :
    succeeded (sys_socket k) ->
    succeeded (sys_bind k) ->
    sys_connect k = Errno err ->
    os_failure k req (- Z.pos err)
| send_lets_down code :
    connected k ->
    send_failure k req code ->
    os_failure k req code
| recv_fails err :
    connected k ->
    sys_send k req = Ok (List.length req) ->
    sys_recv k = Errno err ->
    os_failure k req (- Z.pos err).

(** The request went out whole and the kernel answered with the datagram
    [dgram]; its length fits the [int] that [recv] returns into. *)
Definition replied (k : kernel) (req dgram : list byte) : Prop :=
  connected k
  /\ sys_send k req = Ok (List.length req)
  /\ sys_recv k = Ok dgram
  /\ Z.of_nat (List.length dgram) < 2 ^ 31.

(** A reply that holds at least a header and an error envelope. *)
Definition complete (dgram : list byte) : Prop :=
  NLMSG_SPACE sizeof_nlmsgerr <= Z.of_nat (List.length dgram).

(** The three ways a reply violates the protocol, with the code each is
    reported by: the reply is shorter than a header and an error envelope;
    the length its header declares is not the number of bytes received;
    its message type is not NLMSG_ERROR. *)
Inductive protocol_violation (dgram : list byte) : Z -> Prop :=
| reply_too_short :
    Z.of_nat (List.length dgram) < NLMSG_SPACE sizeof_nlmsgerr ->
    protocol_violation dgram (- EMSGSIZE)
| reply_bad_length declared :
    complete dgram ->
    load dgram offsetof_nlmsg_len 4 = Some declared ->
    declared <> Z.of_nat (List.length dgram) ->
    protocol_violation dgram (- EBADMSG)
| reply_bad_type ty :
    complete dgram ->
    load dgram offsetof_nlmsg_len 4 = Some (Z.of_nat (List.length dgram)) ->
    load dgram offsetof_nlmsg_type 2 = Some ty ->
    ty <> NLMSG_ERROR ->
    protocol_violation dgram (- EBADMSG).

(** A reply that passes the three checks, and the result code that its
    error envelope holds. *)
Definition embedded_result (dgram : list byte) (code : Z) : Prop :=
  complete dgram
  /\ load dgram offsetof_nlmsg_len 4 = Some (Z.of_nat (List.length dgram))
  /\ load dgram offsetof_nlmsg_type 2 = Some NLMSG_ERROR
  /\ option_map C.to_int (load dgram (offsetof_resp_e + offsetof_error) 4)
     = Some code.

(** The statement that the code reporting a protocol violation is never
    the code reporting a failure of the operating system. *)
Definition violation_code_is_distinct : Prop :=
  forall k1 k2 req dgram c1 c2,
    replied k1 req dgram ->
    protocol_violation dgram c1 ->
    os_failure k2 req c2 ->
    c1 <> c2.

(** ** Inputs to run the definitions on *)

(** A value of [NETLINK_REQUEST_FLAGS]: a request that asks for an
    acknowledgement. *)
Definition example_request_flags : Z := Z.lor NLM_F_REQUEST NLM_F_ACK.

Definition example_request : list byte :=
  bytes_of_filter_del_req
    (tcFilterDelDev_req example_request_flags 5 false 1 ETH_P_IP).

(** A kernel that accepts the request and answers with [reply]. *)
Definition kernel_replying (reply : sysret (list byte)) : kernel :=
  {| sys_socket := Ok 3;
     sys_setsockopt := Ok tt;
     sys_bind := Ok tt;
     sys_connect := Ok tt;
     sys_send := fun sent => Ok (List.length sent);
     sys_recv := reply |}.

(** A kernel whose [send] answers [sent] whatever it is given. *)
Definition kernel_sending (sent : sysret nat) : kernel :=
  {| sys_socket := Ok 3;
     sys_setsockopt := Ok tt;
     sys_bind := Ok tt;
     sys_connect := Ok tt;
     sys_send := fun _ => sent;
     sys_recv := Ok [] |}.

(** An acknowledgement as the kernel sends it with NETLINK_CAP_ACK: a
    header of type NLMSG_ERROR, the result code [error], and the header
    of the request it answers. *)
Definition ack_reply (error : Z) (request : nlmsghdr) : list byte :=
  bytes_of_nlmsghdr
    {| nlmsg_len := NLMSG_LENGTH sizeof_nlmsgerr;
       nlmsg_type := NLMSG_ERROR;
       nlmsg_flags := 0;
       nlmsg_seq := 0;
       nlmsg_pid := 0 |}
  ++ le_split 4 error ++ bytes_of_nlmsghdr request.

(** The kernel refuses the request with EEXIST (17). *)
Definition example_ack : list byte :=
  ack_reply (-17)
    (d_n (tcFilterDelDev_req example_request_flags 5 false 1 ETH_P_IP)).

(** A reply of the right size whose type is NLMSG_DONE (3). *)
Definition example_wrong_type : list byte :=
  bytes_of_nlmsghdr
    {| nlmsg_len := NLMSG_LENGTH sizeof_nlmsgerr;
       nlmsg_type := 3;
       nlmsg_flags := 0;
       nlmsg_seq := 0;
       nlmsg_pid := 0 |}
  ++ repeat Byte.x00 (Z.to_nat sizeof_nlmsgerr).

(** ** [hardwareAddressType] *)

(** <linux/if.h> *)
Definition IFNAMSIZ : Z := 16.

(** The members of [struct ifreq] that [hardwareAddressType] touches:
    the name and the family of [ifr_hwaddr]. *)
Record ifreq := {
  ifr_name : list byte;            (* char[IFNAMSIZ] *)
  ifr_hwaddr_sa_family : Z         (* sa_family_t: unsigned short *)
}.

(** What the operating system answers to [hardwareAddressType]: the
    socket, and for [ioctl(SIOCGIFHWADDR)] the structure as the kernel
    leaves it. *)
Record if_kernel := {
  if_socket : sysret Z;
  if_ioctl : ifreq -> sysret ifreq
}.

(** [std::string::c_str()]: the characters followed by a NUL. *)
Definition c_str_of (s : list byte) : list byte := s ++ [Byte.x00].

(** The structure handed to [ioctl]: zeroed, then the name copied in
    with [strncpy(ifr.ifr_name, interface.c_str(), sizeof(ifr.ifr_name))]. *)
Definition hardwareAddressType_ifr (interface : list byte) : ifreq :=
  let ifr := {| ifr_name := repeat Byte.x00 (Z.to_nat IFNAMSIZ);
                ifr_hwaddr_sa_family := 0 |} in
  {| ifr_name := C.strncpy (c_str_of interface) (Z.to_nat IFNAMSIZ)
                 ++ skipn (Z.to_nat IFNAMSIZ) (ifr_name ifr);
     ifr_hwaddr_sa_family := ifr_hwaddr_sa_family ifr |}.

Definition hardwareAddressType (k : if_kernel) (interface : list byte) : Z :=
  match if_socket k with
  | Errno err => - Z.pos err
  | Ok ufd =>
      let ifr := hardwareAddressType_ifr interface in
      match if_ioctl k ifr with
      | Errno err => - Z.pos err
      | Ok ifr' => C.to_u16 (ifr_hwaddr_sa_family ifr')
      end
  end.

(** A kernel that knows the interfaces whose name field is in [known]
    and answers the family [family] for them, ENODEV (19) otherwise. *)
Definition if_kernel_knowing (known : list (list byte)) (family : Z) : if_kernel :=
  {| if_socket := Ok 3;
     if_ioctl := fun ifr =>
       if existsb (fun n => if list_eq_dec Byte.byte_eq_dec n (ifr_name ifr)
                            then true else false) known
       then Ok {| ifr_name := ifr_name ifr; ifr_hwaddr_sa_family := family |}
       else Errno 19 |}.

(** ** Further vocabulary *)

Definition offsetof_tcmsg : nat := Z.to_nat sizeof_nlmsghdr.
Definition offsetof_tcm_ifindex : nat := Z.to_nat sizeof_nlmsghdr + 4.
Definition offsetof_tcm_handle : nat := Z.to_nat sizeof_nlmsghdr + 8.

(** Whether the flags [f] of a header contain the flag [flag]. *)
Definition has_flag (f flag : Z) : bool := Z.land f flag =? flag.

(** Whether the header of the request [buf] has all of [flags] set. *)
Definition has_flags (buf : list byte) (flags : list Z) : bool :=
  match load buf offsetof_nlmsg_flags 2 with
  | Some f => forallb (has_flag f) flags
  | None => false
  end.

(** The protocol that [tcFilterAddDevBpf] attaches for. *)
Definition attached_proto (ipv6 : bool) : Z :=
  if ipv6 then ETH_P_IPV6 else ETH_P_IP.

(** A reply that the transport takes for an acknowledgement carrying the
    result code [code]. *)
Definition accepted_reply (dgram : list byte) (code : Z) : Prop :=
  complete dgram
  /\ load dgram offsetof_nlmsg_len 4
     = Some (C.to_u32 (Z.of_nat (List.length dgram)))
  /\ load dgram offsetof_nlmsg_type 2 = Some NLMSG_ERROR
  /\ option_map C.to_int (load dgram (offsetof_resp_e + offsetof_error) 4)
     = Some code.

(** The kernel accepts the request: the result code is 0. *)
Definition example_success : list byte :=
  ack_reply 0
    (d_n (tcFilterDelDev_req example_request_flags 5 false 1 ETH_P_IP)).


(** * Part II: lemmas and theorems *)

(** ** Basic facts *)

Lemma length_bytes_of_nlmsghdr h :
  Z.of_nat (List.length (bytes_of_nlmsghdr h)) = sizeof_nlmsghdr.
Proof. reflexivity. Qed.

Lemma length_bytes_of_tcmsg t :
  Z.of_nat (List.length (bytes_of_tcmsg t)) = sizeof_tcmsg.
Proof. reflexivity. Qed.

Lemma length_bytes_of_nlattr a :
  Z.of_nat (List.length (bytes_of_nlattr a)) = sizeof_nlattr.
Proof. reflexivity. Qed.

Lemma length_bytes_of_nla_u32 a :
  Z.of_nat (List.length (bytes_of_nla_u32 a)) = sizeof_nla_u32.
Proof. reflexivity. Qed.

Lemma length_strncpy src n : List.length (C.strncpy src n) = n.
Proof.
  revert src; induction n as [|n IH]; intros src; [reflexivity|].
  destruct src as [|c rest]; simpl.
  - now rewrite repeat_length.
  - destruct (Byte.eqb c Byte.x00); simpl.
    + now rewrite repeat_length.
    + now rewrite IH.
Qed.

Lemma load_le_split n z rest :
  load (le_split n z ++ rest) 0 n = Some (z mod 2 ^ (Z.of_nat n * 8)).
Proof.
  unfold load. rewrite length_app, length_le_split.
  replace (0 + n <=? n + List.length rest)%nat with true
    by (symmetry; apply Nat.leb_le; lia).
  simpl skipn. rewrite firstn_app, length_le_split, Nat.sub_diag.
  rewrite firstn_all2 by (rewrite length_le_split; lia).
  simpl firstn. rewrite app_nil_r. now rewrite le_combine_split.
Qed.

Lemma load_skip pre buf off n :
  load (pre ++ buf) (List.length pre + off) n = load buf off n.
Proof.
  unfold load. rewrite length_app.
  rewrite skipn_app, skipn_all2 by lia.
  replace (List.length pre + off - List.length pre)%nat with off by lia.
  simpl app.
  destruct (off + n <=? List.length buf)%nat eqn:E.
  - replace (List.length pre + off + n <=? List.length pre + List.length buf)%nat
      with true; [reflexivity|].
    symmetry; apply Nat.leb_le. apply Nat.leb_le in E. lia.
  - replace (List.length pre + off + n <=? List.length pre + List.length buf)%nat
      with false; [reflexivity|].
    symmetry; apply Nat.leb_gt. apply Nat.leb_gt in E. lia.
Qed.

(** The field [z], written on [n] bytes after the [off] bytes of [pre]. *)
Lemma load_field pre n z post off :
  List.length pre = off ->
  load (pre ++ le_split n z ++ post) off n = Some (z mod 2 ^ (Z.of_nat n * 8)).
Proof.
  intros <-. rewrite <- (Nat.add_0_r (List.length pre)).
  rewrite load_skip. apply load_le_split.
Qed.

Lemma slice_whole buf : slice buf 0 (List.length buf) = Some buf.
Proof.
  unfold slice. simpl. rewrite Nat.leb_refl. now rewrite firstn_all.
Qed.

Lemma load_some buf off n :
  (off + n <= List.length buf)%nat ->
  load buf off n = Some (le_combine (firstn n (skipn off buf))).
Proof.
  intros H. unfold load.
  now replace (off + n <=? List.length buf)%nat with true
    by (symmetry; apply Nat.leb_le; exact H).
Qed.

Lemma load_app_l a b off n :
  (off + n <= List.length a)%nat ->
  load (a ++ b) off n = load a off n.
Proof.
  intros H. rewrite !load_some by (rewrite ?length_app; lia).
  rewrite skipn_app, firstn_app, length_skipn.
  replace (n - (List.length a - off))%nat with 0%nat by lia.
  simpl firstn. now rewrite app_nil_r.
Qed.

Lemma load_firstn m buf off n :
  (off + n <= m)%nat ->
  (off + n <= List.length buf)%nat ->
  load (firstn m buf) off n = load buf off n.
Proof.
  intros Hm Hbuf.
  rewrite <- (firstn_skipn m buf) at 2.
  rewrite load_app_l; [reflexivity|].
  rewrite length_firstn. lia.
Qed.

(** [NLA_ALIGN] rounds up to the next multiple of 4. *)
Lemma NLA_ALIGN_eq len : NLA_ALIGN len = 4 * ((len + 3) / 4).
Proof.
  unfold NLA_ALIGN, NLA_ALIGNTO.
  replace (len + 4 - 1) with (len + 3) by lia.
  change (4 - 1) with (Z.ones 2).
  rewrite <- Z.ldiff_land, Z.ldiff_ones_r by lia.
  rewrite Z.shiftl_mul_pow2, Z.shiftr_div_pow2 by lia.
  change (2 ^ 2) with 4. lia.
Qed.

Lemma NLA_ALIGN_bounds len :
  len <= NLA_ALIGN len < len + 4 /\ NLA_ALIGN len mod 4 = 0.
Proof.
  rewrite NLA_ALIGN_eq. split.
  - pose proof (Z.div_mod (len + 3) 4 ltac:(lia)).
    pose proof (Z.mod_pos_bound (len + 3) 4 ltac:(lia)). lia.
  - rewrite Z.mul_comm. apply Z.mod_mul. lia.
Qed.

(** ** Proof support: computing with requests

    A request is a list of fixed length whose bytes are known except for
    the fields that come from the arguments.  [expose_request] unfolds the
    builders down to the [le_split] of each field, [abstract_field n z]
    replaces the [n] bytes of the field [z] by variables (keeping the
    equation [E] that defines them), after which the goal computes. *)

Ltac expose_request :=
  cbv [qdisc_request doTcQdiscClsact_req tcFilterAddDevBpf_req
       tcFilterAddDevBpf_init strncpy_name_str tcFilterDelDev_req
       bytes_of_qdisc_req bytes_of_filter_add_req bytes_of_filter_del_req
       bytes_of_bpf_options bytes_of_nla_str bytes_of_nla_u32
       bytes_of_nlmsghdr bytes_of_tcmsg bytes_of_nlattr
       q_n q_t q_kind f_n f_t f_kind f_options d_n d_t
       o_attr o_fd o_name o_flags s_attr s_str u_attr u_u32
       nlmsg_len nlmsg_type nlmsg_flags nlmsg_seq nlmsg_pid
       tcm_family tcm__pad1 tcm__pad2 tcm_ifindex tcm_handle tcm_parent
       tcm_info nla_len nla_type].

Ltac split_bytes n l L :=
  lazymatch n with
  | O => destruct l; [clear L | discriminate L]
  | S ?m =>
      destruct l as [|? l];
      [discriminate L | simpl in L; injection L as L; split_bytes m l L]
  end.

Ltac abstract_field n z E :=
  let l := fresh "l" in
  let L := fresh "L" in
  remember (le_split n z) as l eqn:E;
  pose proof (length_le_split n z) as L;
  rewrite <- E in L;
  split_bytes n l L.

Lemma sends_exactly_intro call buf len :
  (forall k, call k = sendAndProcessNetlinkResponse k buf len) ->
  Z.of_nat (List.length buf) = len ->
  load buf offsetof_nlmsg_len 4 = Some len ->
  sends_exactly call buf.
Proof.
  intros Hcall <- Hload. repeat split; auto using slice_whole.
Qed.

(** C3: for each of the three builders and all arguments, the [nlmsg_len]
    field of the header equals the number of bytes of the request, which
    is the length passed to the transport for sending. *)
Theorem header_length_is_bytes_sent
    (NETLINK_REQUEST_FLAGS ifIndex nlMsgType nlMsgFlags bpfFd prio proto : Z)
    (ethernet ingress ipv6 : bool) :
  sends_exactly
    (fun k => doTcQdiscClsact NETLINK_REQUEST_FLAGS k ifIndex nlMsgType nlMsgFlags)
    (bytes_of_qdisc_req
       (doTcQdiscClsact_req NETLINK_REQUEST_FLAGS ifIndex nlMsgType nlMsgFlags))
  /\ sends_exactly
       (fun k => tcFilterAddDevBpf NETLINK_REQUEST_FLAGS k ifIndex bpfFd
                   ethernet ingress ipv6)
       (bytes_of_filter_add_req
          (tcFilterAddDevBpf_req NETLINK_REQUEST_FLAGS ifIndex bpfFd
             ethernet ingress ipv6))
  /\ sends_exactly
       (fun k => tcFilterDelDev NETLINK_REQUEST_FLAGS k ifIndex ingress prio proto)
       (bytes_of_filter_del_req
          (tcFilterDelDev_req NETLINK_REQUEST_FLAGS ifIndex ingress prio proto)).
Proof.
  split; [|split].
  - apply sends_exactly_intro with (len := sizeof_qdisc_req).
    + reflexivity.
    + reflexivity.
    + expose_request. rewrite <- !app_assoc. apply load_le_split.
  - apply sends_exactly_intro with (len := sizeof_filter_add_req).
    + reflexivity.
    + expose_request.
      rewrite !length_app, length_strncpy, !length_le_split. reflexivity.
    + expose_request. rewrite <- !app_assoc. apply load_le_split.
  - apply sends_exactly_intro with (len := sizeof_filter_del_req).
    + reflexivity.
    + reflexivity.
    + expose_request. rewrite <- !app_assoc. apply load_le_split.
Qed.

(** ** Qdisc requests *)

(** C1, as stated, fails: the Delete request for interface 1 does carry
    the "kind" attribute. *)
Lemma delete_keeps_kind_at_1 : ~ delete_omits_kind example_request_flags 1.
Proof. unfold delete_omits_kind. vm_compute. discriminate. Qed.

(** C1, amended: for every interface index the Add and Replace requests
    are byte-identical except for the flags field of the header; the
    Delete request has the delete message type and is byte-identical to
    the Add request except for the type and flags fields of the header:
    it carries the same "clsact" kind attribute.  The flags field of each
    request is NETLINK_REQUEST_FLAGS or-ed with the flags of its use. *)
Theorem qdisc_requests_differ_in_header_only (NETLINK_REQUEST_FLAGS ifIndex : Z) :
  let add := qdisc_request NETLINK_REQUEST_FLAGS QdiscAdd ifIndex in
  let replace := qdisc_request NETLINK_REQUEST_FLAGS QdiscReplace ifIndex in
  let del := qdisc_request NETLINK_REQUEST_FLAGS QdiscDel ifIndex in
  same_but_flags add replace
  /\ load del offsetof_nlmsg_type 2 = Some RTM_DELQDISC
  /\ same_but_type_and_flags del add
  /\ attributes del offsetof_attrs (List.length del) = Some [qdisc_kind_attribute]
  /\ has_attribute TCA_KIND del = true
  /\ (forall op,
        load (qdisc_request NETLINK_REQUEST_FLAGS op ifIndex)
          offsetof_nlmsg_flags 2
        = Some (C.to_u16 (Z.lor NETLINK_REQUEST_FLAGS (nlMsgFlags_of op)))).
Proof.
  cbv zeta. repeat split; try reflexivity.
  intros op. expose_request.
  transitivity
    (Some (C.to_u16 (Z.lor NETLINK_REQUEST_FLAGS (nlMsgFlags_of op))
           mod 2 ^ (Z.of_nat 2 * 8))).
  - apply (load_field (le_split 4 _ ++ le_split 2 _) 2). reflexivity.
  - unfold C.to_u16. now rewrite Z.mod_mod by discriminate.
Qed.

(** ** Attributes of the requests *)

(** C2, as stated, fails: for a raw-IP egress filter the length of the
    name attribute (52) counts one byte more than the header and the
    47 bytes of the name with its NUL. *)
Lemma egress_name_length_counts_fill :
  ~ name_length_is_unpadded example_request_flags 1 3 false false false.
Proof. unfold name_length_is_unpadded. vm_compute. discriminate. Qed.

(** C2, amended: in every qdisc and filter-attach request, each attribute
    starts at an offset that is a multiple of 4 and its length field is
    the header size plus the size of its payload, without the alignment
    padding that follows; the length of "options" covers the padded size
    of its three children.  The payload of the two "kind" attributes is
    the kind string with its NUL, that of the descriptor and of the flags
    a 32-bit integer, and that of the name attribute the whole name field
    of 48 bytes: the name with its NUL for the ingress names, and for the
    egress names the name with its NUL and one more zero byte, which the
    length counts. *)
Theorem attribute_lengths_and_offsets
    (NETLINK_REQUEST_FLAGS ifIndex nlMsgType nlMsgFlags bpfFd : Z)
    (ethernet ingress ipv6 : bool) :
  let q := bytes_of_qdisc_req
             (doTcQdiscClsact_req NETLINK_REQUEST_FLAGS ifIndex
                nlMsgType nlMsgFlags) in
  let f := bytes_of_filter_add_req
             (tcFilterAddDevBpf_req NETLINK_REQUEST_FLAGS ifIndex bpfFd
                ethernet ingress ipv6) in
  let fd := bpf_fd_attribute bpfFd in
  let name := bpf_name_attribute ethernet ingress in
  let flags := bpf_flags_attribute in
  let options := options_attribute bpfFd ethernet ingress in
  let all := [qdisc_kind_attribute; filter_kind_attribute; options;
              fd; name; flags] in
  attributes q offsetof_attrs (List.length q) = Some [qdisc_kind_attribute]
  /\ attributes f offsetof_attrs (List.length f)
     = Some [filter_kind_attribute; options]
  /\ nested f options = Some [fd; name; flags]
  /\ Forall aligned all
  /\ Forall (fun a => a_len a = NLA_HDRLEN + Z.of_nat (List.length (a_payload a)))
       all
  /\ a_len options
     = NLA_HDRLEN + padded_size fd + padded_size name + padded_size flags
  /\ a_payload name
     = C.literal (NAME ethernet ingress)
       ++ (if ingress then [] else [Byte.x00]).
Proof.
  cbv zeta. split; [|split; [|split; [|split; [|split; [|split]]]]].
  - expose_request.
    abstract_field 4%nat ifIndex Ei.
    abstract_field 2%nat nlMsgType Et.
    abstract_field 2%nat (C.to_u16 (Z.lor NETLINK_REQUEST_FLAGS nlMsgFlags)) Ef.
    vm_compute. reflexivity.
  - expose_request.
    cbv [options_attribute bpf_fd_attribute bytes_of_attribute a_payload].
    abstract_field 4%nat ifIndex Ei.
    abstract_field 4%nat (C.to_u32 bpfFd) Ed.
    abstract_field 2%nat
      (Z.lor (Z.lor NETLINK_REQUEST_FLAGS NLM_F_EXCL) NLM_F_CREATE) Ef.
    destruct ethernet, ingress, ipv6; vm_compute; reflexivity.
  - expose_request.
    cbv [options_attribute bpf_fd_attribute bytes_of_attribute a_payload].
    abstract_field 4%nat ifIndex Ei.
    abstract_field 4%nat (C.to_u32 bpfFd) Ed.
    abstract_field 2%nat
      (Z.lor (Z.lor NETLINK_REQUEST_FLAGS NLM_F_EXCL) NLM_F_CREATE) Ef.
    destruct ethernet, ingress, ipv6; vm_compute; reflexivity.
  - repeat constructor.
  - repeat constructor; destruct ethernet, ingress; reflexivity.
  - reflexivity.
  - destruct ethernet, ingress; reflexivity.
Qed.

(** ** The filter-attach request *)

(** C7: for every combination of [ethernet] and [ingress] the name read
    back from the request is the name selected by the two booleans; the
    selection gives the ethernet-ingress name for (ingress, ethernet),
    each of the four names is its compile-time constant, and the four are
    pairwise distinct. *)
Theorem name_selection
    (NETLINK_REQUEST_FLAGS ifIndex bpfFd : Z) (ethernet ingress ipv6 : bool) :
  read_name
    (bytes_of_filter_add_req
       (tcFilterAddDevBpf_req NETLINK_REQUEST_FLAGS ifIndex bpfFd
          ethernet ingress ipv6))
  = Some (list_byte_of_string (NAME ethernet ingress))
  /\ NAME true true = NAME_RX_ETHER
  /\ NAME false true = NAME_RX_RAWIP
  /\ NAME true false = NAME_TX_ETHER
  /\ NAME false false = NAME_TX_RAWIP
  /\ NAME_RX_ETHER = "prog_clatd_schedcls_ingress_clat_ether:[*fsobj]"%string
  /\ NAME_RX_RAWIP = "prog_clatd_schedcls_ingress_clat_rawip:[*fsobj]"%string
  /\ NAME_TX_ETHER = "prog_clatd_schedcls_egress_clat_ether:[*fsobj]"%string
  /\ NAME_TX_RAWIP = "prog_clatd_schedcls_egress_clat_rawip:[*fsobj]"%string
  /\ NoDup [NAME true true; NAME false true; NAME true false; NAME false false].
Proof.
  split.
  - expose_request.
    abstract_field 4%nat ifIndex Ei.
    abstract_field 4%nat (C.to_u32 bpfFd) Ed.
    abstract_field 2%nat
      (Z.lor (Z.lor NETLINK_REQUEST_FLAGS NLM_F_EXCL) NLM_F_CREATE) Ef.
    destruct ethernet, ingress, ipv6; vm_compute; reflexivity.
  - repeat (split; [reflexivity|]).
    repeat constructor; cbn; intros H;
      repeat (destruct H as [H|H]; [discriminate H|]); exact H.
Qed.

(** C8: the request attaching descriptor 42 to interface 5, raw-IP,
    ingress, IPv4: the parent is the ingress clsact handle, the info field
    is [(1 << 16) | htons(ETH_P_IP)], and the options carry the descriptor
    42, the raw-IP ingress name and the direct-action flag. *)
Theorem attach_rawip_ingress_ipv4 (NETLINK_REQUEST_FLAGS : Z) :
  let buf := bytes_of_filter_add_req
               (tcFilterAddDevBpf_req NETLINK_REQUEST_FLAGS 5 42
                  false true false) in
  load buf offsetof_tcm_parent 4
  = Some (TC_H_MAKE TC_H_CLSACT TC_H_MIN_INGRESS)
  /\ load buf offsetof_tcm_info 4
     = Some (Z.lor (Z.shiftl 1 16) (C.htons ETH_P_IP))
  /\ read_u32_attribute TCA_BPF_FD (read_options buf) = Some 42
  /\ read_string_attribute TCA_BPF_NAME (read_options buf)
     = Some (list_byte_of_string NAME_RX_RAWIP)
  /\ read_name buf = Some (list_byte_of_string NAME_RX_RAWIP)
  /\ read_u32_attribute TCA_BPF_FLAGS (read_options buf)
     = Some TCA_BPF_FLAG_ACT_DIRECT.
Proof.
  cbv zeta. expose_request.
  abstract_field 2%nat
    (Z.lor (Z.lor NETLINK_REQUEST_FLAGS NLM_F_EXCL) NLM_F_CREATE) Ef.
  repeat split; vm_compute; reflexivity.
Qed.

(** ** The filter-detach request *)

(** C9: the request detaching priority 1, IPv4, from the egress hook of
    interface 5 is a header and a TC body with no attribute; its type is
    RTM_DELTFILTER, its flags are NETLINK_REQUEST_FLAGS alone, its parent
    is the egress clsact handle, and its info field has 1 in the upper 16
    bits and the IPv4 ethertype in network byte order (bytes 08 00) in the
    lower 16. *)
Theorem detach_egress_ipv4 (NETLINK_REQUEST_FLAGS : Z) :
  let buf := bytes_of_filter_del_req
               (tcFilterDelDev_req NETLINK_REQUEST_FLAGS 5 false 1 ETH_P_IP) in
  Z.of_nat (List.length buf) = sizeof_nlmsghdr + sizeof_tcmsg
  /\ attributes buf offsetof_attrs (List.length buf) = Some []
  /\ load buf offsetof_nlmsg_type 2 = Some RTM_DELTFILTER
  /\ load buf offsetof_nlmsg_flags 2 = Some (C.to_u16 NETLINK_REQUEST_FLAGS)
  /\ load buf offsetof_tcm_parent 4
     = Some (TC_H_MAKE TC_H_CLSACT TC_H_MIN_EGRESS)
  /\ option_map (fun info => (Z.shiftr info 16, Z.land info 65535))
       (load buf offsetof_tcm_info 4)
     = Some (1, C.htons ETH_P_IP)
  /\ slice buf offsetof_tcm_info 2 = Some [Byte.x08; Byte.x00].
Proof.
  cbv zeta. split; [reflexivity|]. split; [reflexivity|].
  split; [reflexivity|]. split.
  - expose_request.
    apply (load_field (le_split 4 _ ++ le_split 2 _) 2 NETLINK_REQUEST_FLAGS).
    reflexivity.
  - repeat split; reflexivity.
Qed.

(** ** The name field *)

Lemma eqb_x00_false c : c <> Byte.x00 -> Byte.eqb c Byte.x00 = false.
Proof.
  intros Hc. destruct (Byte.eqb c Byte.x00) eqn:E; [|reflexivity].
  now apply Byte.byte_dec_bl in E.
Qed.

(** Copying a NUL-terminated array of at most [n] bytes with [strncpy]
    writes all of it, NUL included, and fills the rest with NUL. *)
Lemma strncpy_terminated cs rest n :
  ~ In Byte.x00 cs ->
  (List.length cs < n)%nat ->
  C.strncpy (cs ++ Byte.x00 :: rest) n
  = (cs ++ [Byte.x00]) ++ repeat Byte.x00 (n - List.length (cs ++ [Byte.x00])).
Proof.
  revert n; induction cs as [|c cs IH]; intros n Hnul Hlen.
  - destruct n as [|n]; [inversion Hlen|].
    cbn [C.strncpy app Byte.eqb]. simpl.
    now rewrite Nat.sub_0_r.
  - destruct n as [|n]; [inversion Hlen|].
    cbn [C.strncpy app].
    rewrite eqb_x00_false by (intros ->; apply Hnul; now left).
    simpl. f_equal. apply IH.
    + intros Hin. apply Hnul. now right.
    + simpl in Hlen. lia.
Qed.

Lemma c_str_terminated cs rest :
  ~ In Byte.x00 cs -> C.c_str (cs ++ Byte.x00 :: rest) = Some cs.
Proof.
  induction cs as [|c cs IH]; intros Hnul; [reflexivity|].
  cbn [C.c_str app].
  rewrite eqb_x00_false by (intros ->; apply Hnul; now left).
  rewrite IH; [reflexivity|]. intros Hin. apply Hnul. now right.
Qed.

Lemma NAME_has_no_NUL ethernet ingress :
  ~ In Byte.x00 (list_byte_of_string (NAME ethernet ingress)).
Proof.
  destruct ethernet, ingress; cbn; intros H;
    repeat (destruct H as [H|H]; [discriminate H|]); exact H.
Qed.

(** C10: for every combination of [ethernet] and [ingress] the selected
    name, with its NUL, is no larger than the longest of the four names,
    to which the name field is sized; so [strncpy] stores the whole name
    and its NUL, followed by zero bytes up to the end of the field, and
    the field reads back as the full name. *)
Theorem name_fits_in_field
    (NETLINK_REQUEST_FLAGS ifIndex bpfFd : Z) (ethernet ingress ipv6 : bool) :
  let lit := C.literal (NAME ethernet ingress) in
  let str := s_str (o_name (f_options
               (tcFilterAddDevBpf_req NETLINK_REQUEST_FLAGS ifIndex bpfFd
                  ethernet ingress ipv6))) in
  sizeof_array lit <= ASCIIZ_MAXLEN_NAME
  /\ ASCIIZ_MAXLEN_NAME <= sizeof_name_str
  /\ sizeof_array str = sizeof_name_str
  /\ str = lit ++ repeat Byte.x00 (Z.to_nat sizeof_name_str - List.length lit)
  /\ C.c_str str = Some (list_byte_of_string (NAME ethernet ingress)).
Proof.
  cbv zeta.
  assert (Hfit : sizeof_array (C.literal (NAME ethernet ingress))
                 <= ASCIIZ_MAXLEN_NAME)
    by (destruct ethernet, ingress; discriminate).
  assert (Hfield : ASCIIZ_MAXLEN_NAME <= sizeof_name_str) by discriminate.
  assert (Hstr :
            s_str (o_name (f_options
              (tcFilterAddDevBpf_req NETLINK_REQUEST_FLAGS ifIndex bpfFd
                 ethernet ingress ipv6)))
            = C.literal (NAME ethernet ingress)
              ++ repeat Byte.x00
                   (Z.to_nat sizeof_name_str
                    - List.length (C.literal (NAME ethernet ingress)))).
  { cbn [tcFilterAddDevBpf_req strncpy_name_str f_options o_name s_str].
    unfold C.literal at 1.
    rewrite strncpy_terminated.
    - rewrite app_nil_r. reflexivity || (simpl skipn; apply app_nil_r).
    - apply NAME_has_no_NUL.
    - unfold sizeof_array, C.literal in Hfit. rewrite length_app in Hfit.
      simpl List.length in Hfit. lia. }
  repeat split; try assumption.
  - rewrite Hstr. unfold sizeof_array.
    rewrite length_app, repeat_length.
    unfold sizeof_array in Hfit. lia.
  - rewrite Hstr. unfold C.literal. rewrite <- app_assoc.
    apply c_str_terminated, NAME_has_no_NUL.
Qed.

(** ** The transport: failures of [send] *)

Ltac open_transport Hc :=
  unfold transact, sendAndProcessNetlinkResponse;
  destruct Hc as (Hsocket & Hbind & Hconnect);
  revert Hsocket Hbind Hconnect; unfold succeeded;
  destruct (sys_socket _); [|contradiction];
  destruct (sys_bind _); [|contradiction];
  destruct (sys_connect _); [|contradiction];
  intros _ _ _;
  rewrite Nat2Z.id, slice_whole.

Ltac close_send_failure Hfail :=
  let err := fresh "err" in
  let n := fresh "n" in
  let Hsend := fresh "Hsend" in
  let Hlt := fresh "Hlt" in
  destruct Hfail as [err Hsend | n Hsend Hlt]; rewrite Hsend;
  [ reflexivity
  | match goal with
    | |- context [Z.of_nat n =? ?len] =>
        replace (Z.of_nat n =? len) with false
          by (symmetry; apply Z.eqb_neq; lia)
    end;
    reflexivity ].

(** C4: once the socket is connected, a [send] that fails makes the
    transaction return the negated [errno], and a [send] that transfers
    fewer bytes than the request length makes it return [-EMSGSIZE]. *)
Theorem send_failure_code (k : kernel) (req : list byte) (code : Z) :
  connected k ->
  send_failure k req code ->
  transact k req = Some code.
Proof.
  intros Hc Hfail.
  unfold transact, sendAndProcessNetlinkResponse.
  destruct Hc as (Hsocket & Hbind & Hconnect).
  unfold succeeded in Hsocket, Hbind, Hconnect.
  destruct (sys_socket k) as [fd|]; [|contradiction].
  destruct (sys_bind k); [|contradiction].
  destruct (sys_connect k); [|contradiction].
  (* all the bytes of the request are handed to send *)
  rewrite Nat2Z.id, slice_whole.
  destruct Hfail as [err Hsend | n Hsend Hlt]; rewrite Hsend.
  - (* rv == -1 *)
    reflexivity.
  - (* rv != len *)
    assert (Hne : (Z.of_nat n =? Z.of_nat (List.length req)) = false)
      by (apply Z.eqb_neq; lia).
    rewrite Hne. reflexivity.
Qed.

(** The theorem at work: a kernel whose [send] transfers 20 of the 36
    bytes of the request. *)
Lemma send_failure_code_witness :
  connected (kernel_sending (Ok 20%nat))
  /\ send_failure (kernel_sending (Ok 20%nat)) example_request (- EMSGSIZE)
  /\ transact (kernel_sending (Ok 20%nat)) example_request = Some (- EMSGSIZE).
Proof.
  assert (Hc : connected (kernel_sending (Ok 20%nat)))
    by (repeat split).
  assert (Hf : send_failure (kernel_sending (Ok 20%nat)) example_request
                 (- EMSGSIZE))
    by (apply send_short with (n := 20%nat); [reflexivity | simpl; lia]).
  split; [exact Hc|]. split; [exact Hf|].
  exact (send_failure_code _ _ _ Hc Hf).
Defined.

(** ** The transport: validation of the reply *)

(** What [recv] leaves in [resp] agrees with the datagram on every field
    that lies inside both. *)
Lemma load_recv_into resp dgram off n :
  (off + n <= List.length resp)%nat ->
  (off + n <= List.length dgram)%nat ->
  load (snd (recv_into resp dgram)) off n = load dgram off n.
Proof.
  intros Hresp Hdgram. unfold recv_into. cbn [snd].
  rewrite load_app_l by (rewrite length_firstn; lia).
  now apply load_firstn.
Qed.

Lemma length_recv_into resp dgram :
  List.length (snd (recv_into resp dgram)) = List.length resp.
Proof.
  unfold recv_into. cbn [snd].
  rewrite length_app, length_skipn, length_firstn. lia.
Qed.

Ltac open_reply Hr dgram :=
  let Hc := fresh "Hc" in
  let Hsend := fresh "Hsend" in
  let Hrecv := fresh "Hrecv" in
  destruct Hr as (Hc & Hsend & Hrecv & Hrange);
  open_transport Hc;
  rewrite Hsend, Z.eqb_refl, Hrecv;
  cbn [negb];
  rewrite (surjective_pairing (recv_into _ dgram));
  change (fst (recv_into ?r dgram))
    with (Z.of_nat (@List.length byte dgram)).

Lemma to_u32_length (dgram : list byte) :
  Z.of_nat (List.length dgram) < 2 ^ 31 ->
  C.to_u32 (Z.of_nat (List.length dgram)) = Z.of_nat (List.length dgram).
Proof. intros H. unfold C.to_u32. apply Z.mod_small. lia. Qed.

Lemma transact_violation k req dgram code :
  replied k req dgram ->
  protocol_violation dgram code ->
  transact k req = Some code.
Proof.
  intros Hr Hv. open_reply Hr dgram.
  destruct Hv as [Hshort | declared Hcomplete Hlen Hne
                 | ty Hcomplete Hlen Hty Hne].
  - replace (Z.of_nat (List.length dgram) <? NLMSG_SPACE sizeof_nlmsgerr)
      with true by (symmetry; apply Z.ltb_lt; exact Hshort).
    reflexivity.
  - unfold complete in Hcomplete.
    replace (Z.of_nat (List.length dgram) <? NLMSG_SPACE sizeof_nlmsgerr)
      with false by (symmetry; apply Z.ltb_ge; exact Hcomplete).
    change (NLMSG_SPACE sizeof_nlmsgerr) with 36 in Hcomplete.
    rewrite load_recv_into by (rewrite ?repeat_length; cbn; lia).
    rewrite Hlen, to_u32_length by exact Hrange.
    replace (declared =? Z.of_nat (List.length dgram)) with false
      by (symmetry; apply Z.eqb_neq; exact Hne).
    reflexivity.
  - unfold complete in Hcomplete.
    replace (Z.of_nat (List.length dgram) <? NLMSG_SPACE sizeof_nlmsgerr)
      with false by (symmetry; apply Z.ltb_ge; exact Hcomplete).
    change (NLMSG_SPACE sizeof_nlmsgerr) with 36 in Hcomplete.
    rewrite !load_recv_into by (rewrite ?repeat_length; cbn; lia).
    rewrite Hlen, to_u32_length, Z.eqb_refl, Hty by exact Hrange.
    replace (ty =? NLMSG_ERROR) with false
      by (symmetry; apply Z.eqb_neq; exact Hne).
    reflexivity.
Qed.

Lemma transact_embedded_result k req dgram code :
  replied k req dgram ->
  embedded_result dgram code ->
  transact k req = Some code.
Proof.
  intros Hr (Hcomplete & Hlen & Hty & Herr). open_reply Hr dgram.
  unfold complete in Hcomplete.
  replace (Z.of_nat (List.length dgram) <? NLMSG_SPACE sizeof_nlmsgerr)
    with false by (symmetry; apply Z.ltb_ge; exact Hcomplete).
  change (NLMSG_SPACE sizeof_nlmsgerr) with 36 in Hcomplete.
  change (offsetof_resp_e + offsetof_error)%nat with 16%nat in *.
  rewrite !load_recv_into by (rewrite ?repeat_length; cbn; lia).
  rewrite Hlen, to_u32_length, Z.eqb_refl, Hty, Z.eqb_refl by exact Hrange.
  cbn [negb].
  destruct (load dgram 16 4) as [e|]; [|discriminate Herr].
  cbn in Herr. congruence.
Qed.

(** Every reply is either a protocol violation or carries a result. *)
Lemma reply_cases dgram :
  exists code,
    (protocol_violation dgram code /\ code < 0) \/ embedded_result dgram code.
Proof.
  destruct (Z.ltb_spec (Z.of_nat (List.length dgram))
              (NLMSG_SPACE sizeof_nlmsgerr)) as [Hshort | Hcomplete].
  { exists (- EMSGSIZE). left. split; [now constructor | reflexivity]. }
  assert (H36 : (36 <= List.length dgram)%nat)
    by (change (NLMSG_SPACE sizeof_nlmsgerr) with 36 in Hcomplete; lia).
  destruct (load dgram offsetof_nlmsg_len 4) as [declared|] eqn:Hlen;
    [|rewrite load_some in Hlen by (cbn; lia); discriminate Hlen].
  destruct (load dgram offsetof_nlmsg_type 2) as [ty|] eqn:Hty;
    [|rewrite load_some in Hty by (cbn; lia); discriminate Hty].
  destruct (load dgram (offsetof_resp_e + offsetof_error) 4) as [e|] eqn:Herr;
    [|change (offsetof_resp_e + offsetof_error)%nat with 16%nat in Herr;
      rewrite load_some in Herr by lia; discriminate Herr].
  destruct (Z.eq_dec declared (Z.of_nat (List.length dgram))) as [-> | Hne].
  - destruct (Z.eq_dec ty NLMSG_ERROR) as [-> | Hne].
    + exists (C.to_int e). right. repeat split; try assumption.
      now rewrite Herr.
    + exists (- EBADMSG). left. split; [|reflexivity].
      now apply reply_bad_type with (ty := ty).
  - exists (- EBADMSG). left. split; [|reflexivity].
    now apply reply_bad_length with (declared := declared).
Qed.

(** A reply that violates the protocol carries no result. *)
Lemma violation_excludes_result dgram code code' :
  protocol_violation dgram code -> embedded_result dgram code' -> False.
Proof.
  intros Hv (Hcomplete & Hlen & Hty & _). unfold complete in Hcomplete.
  destruct Hv as [Hshort | declared _ Hlen' Hne | ty _ _ Hty' Hne].
  - lia.
  - congruence.
  - congruence.
Qed.

(** C5: for every reply received, the transport returns a value (it
    reads nothing outside its buffers), and either the reply is too
    short, or declares a length that is not the number of bytes received,
    or has a type other than NLMSG_ERROR, and the value is a negative
    error code, or the reply passes the three checks and the value is the
    result code held in its error envelope. *)
Theorem reply_validation (k : kernel) (req dgram : list byte) :
  replied k req dgram ->
  exists code,
    transact k req = Some code
    /\ ((protocol_violation dgram code /\ code < 0)
        \/ embedded_result dgram code).
Proof.
  intros Hr. destruct (reply_cases dgram) as [code Hcode].
  exists code. split; [|exact Hcode].
  destruct Hcode as [[Hv _] | He].
  - now apply transact_violation with (dgram := dgram).
  - now apply transact_embedded_result with (dgram := dgram).
Qed.

(** The theorem at work: the kernel acknowledges the request with the
    result code -17. *)
Lemma reply_validation_witness :
  replied (kernel_replying (Ok example_ack)) example_request example_ack
  /\ exists code,
       transact (kernel_replying (Ok example_ack)) example_request = Some code
       /\ ((protocol_violation example_ack code /\ code < 0)
           \/ embedded_result example_ack code).
Proof.
  assert (Hr : replied (kernel_replying (Ok example_ack))
                 example_request example_ack)
    by (repeat split; reflexivity).
  split; [exact Hr|].
  exact (reply_validation _ _ _ Hr).
Defined.

(** The transport reads nothing outside the request and its reply
    buffer, whatever the kernel answers. *)
Lemma transact_in_bounds k req : exists code, transact k req = Some code.
Proof.
  unfold transact, sendAndProcessNetlinkResponse.
  destruct (sys_socket k); [|eauto].
  destruct (sys_bind k); [|eauto].
  destruct (sys_connect k); [|eauto].
  rewrite Nat2Z.id, slice_whole.
  destruct (sys_send k req) as [n|]; [|eauto].
  destruct (negb (Z.of_nat n =? Z.of_nat (List.length req))); [eauto|].
  destruct (sys_recv k) as [dgram|]; [|eauto].
  rewrite (surjective_pairing (recv_into _ dgram)).
  destruct (fst (recv_into _ dgram) <? NLMSG_SPACE sizeof_nlmsgerr); [eauto|].
  rewrite !load_some
    by (rewrite length_recv_into, repeat_length; apply Nat.leb_le;
        reflexivity).
  destruct (negb _); [eauto|].
  destruct (negb _); eauto.
Qed.

(** ** The transport: codes of the failures *)

Lemma transact_os_failure k req code :
  os_failure k req code -> transact k req = Some code.
Proof.
  intros [err Hs | err Hs Hb | err Hs Hb Hc | c Hc Hf | err Hc Hsend Hrecv].
  - unfold transact, sendAndProcessNetlinkResponse. now rewrite Hs.
  - unfold transact, sendAndProcessNetlinkResponse.
    destruct (sys_socket k); [|contradiction]. now rewrite Hb.
  - unfold transact, sendAndProcessNetlinkResponse.
    destruct (sys_socket k); [|contradiction].
    destruct (sys_bind k); [|contradiction]. now rewrite Hc.
  - open_transport Hc. close_send_failure Hf.
  - open_transport Hc. now rewrite Hsend, Z.eqb_refl, Hrecv.
Qed.

(** C6, as stated, fails: an empty reply is reported by [-EMSGSIZE], the
    code that also reports a short [send]. *)
Lemma short_reply_reported_as_short_send : ~ violation_code_is_distinct.
Proof.
  intros H.
  apply (H (kernel_replying (Ok [])) (kernel_sending (Ok 20%nat))
           example_request [] (- EMSGSIZE) (- EMSGSIZE)).
  - repeat split; reflexivity.
  - apply reply_too_short. reflexivity.
  - apply send_lets_down; [repeat split|].
    apply send_short with (n := 20%nat); [reflexivity | simpl; lia].
  - reflexivity.
Qed.

(** C6, amended: a protocol violation is reported by a negated [errno]
    constant, in the space of codes that report the failures of the
    operating system: [-EMSGSIZE] for a reply that is too short,
    [-EBADMSG] for a declared length that is not the number of bytes
    received and for a message type other than NLMSG_ERROR. *)
Theorem violation_codes (k : kernel) (req dgram : list byte) (code : Z) :
  replied k req dgram ->
  protocol_violation dgram code ->
  transact k req = Some code
  /\ (code = - EMSGSIZE \/ code = - EBADMSG)
  /\ exists err : positive, code = - Z.pos err.
Proof.
  intros Hr Hv. split; [|split].
  - now apply transact_violation with (dgram := dgram).
  - destruct Hv; auto.
  - destruct Hv.
    + now exists 90%positive.
    + now exists 74%positive.
    + now exists 74%positive.
Qed.

(** The theorem at work: the kernel answers with a message of type
    NLMSG_DONE. *)
Lemma violation_codes_witness :
  replied (kernel_replying (Ok example_wrong_type))
    example_request example_wrong_type
  /\ protocol_violation example_wrong_type (- EBADMSG)
  /\ transact (kernel_replying (Ok example_wrong_type)) example_request
     = Some (- EBADMSG)
  /\ (- EBADMSG = - EMSGSIZE \/ - EBADMSG = - EBADMSG)
  /\ exists err : positive, - EBADMSG = - Z.pos err.
Proof.
  assert (Hr : replied (kernel_replying (Ok example_wrong_type))
                 example_request example_wrong_type)
    by (repeat split; reflexivity).
  assert (Hv : protocol_violation example_wrong_type (- EBADMSG)).
  { apply reply_bad_type with (ty := 3).
    - unfold complete. vm_compute. discriminate.
    - reflexivity.
    - reflexivity.
    - discriminate. }
  split; [exact Hr|]. split; [exact Hv|].
  exact (violation_codes _ _ _ _ Hr Hv).
Defined.

(** * Part III: further properties of the code *)

(** ** [hardwareAddressType] *)


Lemma strncpy_full cs rest n :
  ~ In Byte.x00 cs ->
  List.length cs = n ->
  C.strncpy (cs ++ rest) n = cs.
Proof.
  revert n; induction cs as [|c cs IH]; intros n Hnul Hlen.
  - subst n. reflexivity.
  - destruct n as [|n]; [discriminate Hlen|].
    cbn [C.strncpy app].
    rewrite eqb_x00_false by (intros ->; apply Hnul; now left).
    f_equal. apply IH.
    + intros Hin. apply Hnul. now right.
    + now injection Hlen.
Qed.

Lemma c_str_unterminated cs : ~ In Byte.x00 cs -> C.c_str cs = None.
Proof.
  induction cs as [|c cs IH]; intros Hnul; [reflexivity|].
  cbn [C.c_str].
  rewrite eqb_x00_false by (intros ->; apply Hnul; now left).
  rewrite IH; [reflexivity|]. intros Hin. apply Hnul. now right.
Qed.

(** [strncpy] looks at no more than the first [n] characters. *)
Lemma strncpy_prefix a n :
  C.strncpy (c_str_of a) n = C.strncpy (c_str_of (firstn n a)) n.
Proof.
  revert a; induction n as [|n IH]; intros a; [reflexivity|].
  destruct a as [|c a]; [reflexivity|].
  cbn [firstn c_str_of app C.strncpy].
  destruct (Byte.eqb c Byte.x00); [reflexivity|].
  f_equal. apply IH.
Qed.

Lemma ifr_name_eq interface :
  ifr_name (hardwareAddressType_ifr interface)
  = C.strncpy (c_str_of interface) (Z.to_nat IFNAMSIZ).
Proof.
  cbn [hardwareAddressType_ifr ifr_name].
  rewrite skipn_all2 by (rewrite repeat_length; lia).
  apply app_nil_r.
Qed.

Lemma ifr_name_short name :
  ~ In Byte.x00 name ->
  (List.length name < Z.to_nat IFNAMSIZ)%nat ->
  ifr_name (hardwareAddressType_ifr name)
  = c_str_of name
    ++ repeat Byte.x00 (Z.to_nat IFNAMSIZ - List.length (c_str_of name)).
Proof.
  intros Hnul Hlen. rewrite ifr_name_eq. unfold c_str_of.
  now apply strncpy_terminated.
Qed.

(** X2: an interface name of at most 15 characters reaches the kernel
    whole and NUL-terminated: the name field holds the name, then zero
    bytes up to its 16 bytes, and reads back as the name. *)
Theorem short_name_is_terminated (name : list byte) :
  ~ In Byte.x00 name ->
  (List.length name < Z.to_nat IFNAMSIZ)%nat ->
  let field := ifr_name (hardwareAddressType_ifr name) in
  field = name ++ repeat Byte.x00 (Z.to_nat IFNAMSIZ - List.length name)
  /\ Z.of_nat (List.length field) = IFNAMSIZ
  /\ C.c_str field = Some name.
Proof.
  intros Hnul Hlen. cbv zeta.
  rewrite ifr_name_short by assumption.
  unfold c_str_of. rewrite <- app_assoc, length_app.
  cbn [List.length app].
  assert (Hfill : Byte.x00
                  :: repeat Byte.x00
                       (Z.to_nat IFNAMSIZ - (List.length name + 1))
                  = repeat Byte.x00 (Z.to_nat IFNAMSIZ - List.length name)).
  { replace (Z.to_nat IFNAMSIZ - List.length name)%nat
      with (S (Z.to_nat IFNAMSIZ - (List.length name + 1))) by lia.
    reflexivity. }
  split; [|split].
  - now rewrite Hfill.
  - rewrite length_app. cbn [List.length]. rewrite repeat_length.
    change IFNAMSIZ with 16 in *. lia.
  - now apply c_str_terminated.
Qed.

(** The theorem at work on the name wlan0. *)
Lemma short_name_is_terminated_witness :
  let name := list_byte_of_string "wlan0" in
  let field := ifr_name (hardwareAddressType_ifr name) in
  field = name ++ repeat Byte.x00 (Z.to_nat IFNAMSIZ - List.length name)
  /\ Z.of_nat (List.length field) = IFNAMSIZ
  /\ C.c_str field = Some name.
Proof.
  apply (short_name_is_terminated (list_byte_of_string "wlan0")).
  - cbn. intros H.
    repeat (destruct H as [H|H]; [discriminate H|]). exact H.
  - cbn. lia.
Defined.

(** X3: an interface name of 16 characters or more is not cut to 15
    characters and terminated: the name field holds its first 16
    characters and no NUL, so it differs from the name field of every
    name of at most 15 characters. *)
Theorem long_name_is_not_truncated (name short : list byte) :
  ~ In Byte.x00 (firstn (Z.to_nat IFNAMSIZ) name) ->
  (Z.to_nat IFNAMSIZ <= List.length name)%nat ->
  ~ In Byte.x00 short ->
  (List.length short < Z.to_nat IFNAMSIZ)%nat ->
  let field := ifr_name (hardwareAddressType_ifr name) in
  field = firstn (Z.to_nat IFNAMSIZ) name
  /\ C.c_str field = None
  /\ field <> ifr_name (hardwareAddressType_ifr short).
Proof.
  intros Hnul Hlen Hnul' Hlen'. cbv zeta.
  assert (Hfield : ifr_name (hardwareAddressType_ifr name)
                   = firstn (Z.to_nat IFNAMSIZ) name).
  { rewrite ifr_name_eq. unfold c_str_of.
    rewrite <- (firstn_skipn (Z.to_nat IFNAMSIZ) name) at 1.
    rewrite <- app_assoc. apply strncpy_full; [exact Hnul|].
    rewrite length_firstn. lia. }
  assert (Hnone : C.c_str (ifr_name (hardwareAddressType_ifr name)) = None)
    by (rewrite Hfield; now apply c_str_unterminated).
  split; [exact Hfield|]. split; [exact Hnone|].
  intros Heq. rewrite Heq in Hnone.
  rewrite ifr_name_short in Hnone by assumption.
  unfold c_str_of in Hnone. rewrite <- app_assoc in Hnone.
  cbn [app] in Hnone. rewrite c_str_terminated in Hnone by assumption.
  discriminate Hnone.
Qed.

(** The theorem at work on a name of 17 characters and its first 15. *)
Lemma long_name_is_not_truncated_witness :
  let name := list_byte_of_string "verylonginterface" in
  let short := list_byte_of_string "verylonginterfa" in
  let field := ifr_name (hardwareAddressType_ifr name) in
  field = firstn (Z.to_nat IFNAMSIZ) name
  /\ C.c_str field = None
  /\ field <> ifr_name (hardwareAddressType_ifr short).
Proof.
  apply (long_name_is_not_truncated
           (list_byte_of_string "verylonginterface")
           (list_byte_of_string "verylonginterfa")).
  - cbn. intros H.
    repeat (destruct H as [H|H]; [discriminate H|]). exact H.
  - cbn. lia.
  - cbn. intros H.
    repeat (destruct H as [H|H]; [discriminate H|]). exact H.
  - cbn. lia.
Defined.

(** X4: only the first 16 characters of the interface name count: two
    names that agree on them get the same answer. *)
Theorem same_prefix_same_answer (k : if_kernel) (a b : list byte) :
  firstn (Z.to_nat IFNAMSIZ) a = firstn (Z.to_nat IFNAMSIZ) b ->
  hardwareAddressType k a = hardwareAddressType k b.
Proof.
  intros Hprefix.
  assert (Hifr : hardwareAddressType_ifr a = hardwareAddressType_ifr b).
  { unfold hardwareAddressType_ifr. f_equal. f_equal.
    rewrite (strncpy_prefix a), (strncpy_prefix b). now rewrite Hprefix. }
  unfold hardwareAddressType. now rewrite Hifr.
Qed.

(** The theorem at work: the kernel knows "verylonginterfac" only by its
    16 characters, and answers ARPHRD_ETHER (1) for two longer names. *)
Lemma same_prefix_same_answer_witness :
  let k := if_kernel_knowing [list_byte_of_string "verylonginterfac"] 1 in
  hardwareAddressType k (list_byte_of_string "verylonginterface0")
  = hardwareAddressType k (list_byte_of_string "verylonginterface1").
Proof.
  apply (same_prefix_same_answer
           (if_kernel_knowing [list_byte_of_string "verylonginterfac"] 1)).
  reflexivity.
Defined.

(** ** The transport, further *)

Lemma negated_errno_nonzero (err : positive) (code : Z) :
  Some (- Z.pos err) = Some code -> code < 0.
Proof. intros H. injection H as <-. lia. Qed.

(** X5: the transaction returns 0 only when everything went well: the
    socket was opened, bound and connected, the request was sent whole,
    and the kernel answered with a complete NLMSG_ERROR message whose
    declared length is the number of bytes received and whose result
    code is 0.  No failure is reported as 0. *)
Theorem zero_means_acknowledged (k : kernel) (req : list byte) :
  transact k req = Some 0 ->
  connected k
  /\ sys_send k req = Ok (List.length req)
  /\ exists dgram, sys_recv k = Ok dgram /\ accepted_reply dgram 0.
Proof.
  unfold transact, sendAndProcessNetlinkResponse, connected, succeeded.
  destruct (sys_socket k) as [fd|err];
    [|intros H; apply negated_errno_nonzero in H; lia].
  destruct (sys_bind k) as [[]|err];
    [|intros H; apply negated_errno_nonzero in H; lia].
  destruct (sys_connect k) as [[]|err];
    [|intros H; apply negated_errno_nonzero in H; lia].
  rewrite Nat2Z.id, slice_whole.
  destruct (sys_send k req) as [n|err];
    [|intros H; apply negated_errno_nonzero in H; lia].
  destruct (Z.eqb_spec (Z.of_nat n) (Z.of_nat (List.length req)))
    as [Hn | Hn]; cbn [negb]; [|discriminate].
  apply Nat2Z.inj in Hn. subst n.
  destruct (sys_recv k) as [dgram|err];
    [|intros H; apply negated_errno_nonzero in H; lia].
  rewrite (surjective_pairing (recv_into _ dgram)).
  change (fst (recv_into ?r dgram)) with (Z.of_nat (List.length dgram)).
  destruct (Z.ltb_spec (Z.of_nat (List.length dgram))
              (NLMSG_SPACE sizeof_nlmsgerr)) as [Hshort | Hcomplete];
    [discriminate|].
  assert (H36 : (36 <= List.length dgram)%nat)
    by (change (NLMSG_SPACE sizeof_nlmsgerr) with 36 in Hcomplete; lia).
  change (offsetof_resp_e + offsetof_error)%nat with 16%nat.
  rewrite !load_recv_into by (rewrite ?repeat_length; cbn; lia).
  destruct (load dgram offsetof_nlmsg_len 4) as [declared|] eqn:Hlen;
    [|discriminate].
  destruct (Z.eqb_spec declared (C.to_u32 (Z.of_nat (List.length dgram))))
    as [-> | Hne]; cbn [negb]; [|discriminate].
  destruct (load dgram offsetof_nlmsg_type 2) as [ty|] eqn:Hty;
    [|discriminate].
  destruct (Z.eqb_spec ty NLMSG_ERROR) as [-> | Hne]; cbn [negb];
    [|discriminate].
  destruct (load dgram 16 4) as [e|] eqn:Herr; [|discriminate].
  intros Hzero.
  repeat split; try exact I.
  exists dgram. split; [reflexivity|].
  unfold accepted_reply, complete.
  change (offsetof_resp_e + offsetof_error)%nat with 16%nat.
  rewrite Herr. cbn [option_map].
  repeat split; try assumption.
Qed.

(** The theorem at work: the kernel acknowledges with the result code 0. *)
Lemma zero_means_acknowledged_witness :
  let k := kernel_replying (Ok example_success) in
  connected k
  /\ sys_send k example_request = Ok (List.length example_request)
  /\ exists dgram, sys_recv k = Ok dgram /\ accepted_reply dgram 0.
Proof.
  apply (zero_means_acknowledged (kernel_replying (Ok example_success))
           example_request).
  reflexivity.
Defined.

(** X6: when the socket cannot be opened, bound or connected, when
    [send] fails or falls short, or when [recv] fails, the transaction
    returns the code of that failure, and the code is negative. *)
Theorem os_failure_reported (k : kernel) (req : list byte) (code : Z) :
  os_failure k req code ->
  transact k req = Some code /\ code < 0.
Proof.
  intros Hfail. split; [now apply transact_os_failure|].
  destruct Hfail as [err _ | err _ _ | err _ _ _ | c _ Hsend | err _ _ _];
    try lia.
  destruct Hsend; [lia | reflexivity].
Qed.

(** The theorem at work: [recv] fails with EAGAIN (11). *)
Lemma os_failure_reported_witness :
  let k := kernel_replying (Errno 11) in
  os_failure k example_request (-11)
  /\ transact k example_request = Some (-11) /\ -11 < 0.
Proof.
  cbv zeta.
  assert (Hf : os_failure (kernel_replying (Errno 11)) example_request (-11))
    by (apply (recv_fails _ _ 11%positive); [repeat split | reflexivity
                                             | reflexivity]).
  split; [exact Hf|].
  exact (os_failure_reported _ _ _ Hf).
Defined.

Lemma doTcQdiscClsact_transact NRF k ifIndex nlMsgType nlMsgFlags :
  doTcQdiscClsact NRF k ifIndex nlMsgType nlMsgFlags
  = transact k (bytes_of_qdisc_req
                  (doTcQdiscClsact_req NRF ifIndex nlMsgType nlMsgFlags)).
Proof. reflexivity. Qed.

Lemma tcFilterAddDevBpf_transact NRF k ifIndex bpfFd ethernet ingress ipv6 :
  tcFilterAddDevBpf NRF k ifIndex bpfFd ethernet ingress ipv6
  = transact k (bytes_of_filter_add_req
                  (tcFilterAddDevBpf_req NRF ifIndex bpfFd
                     ethernet ingress ipv6)).
Proof. destruct ethernet, ingress; reflexivity. Qed.

Lemma tcFilterDelDev_transact NRF k ifIndex ingress prio proto :
  tcFilterDelDev NRF k ifIndex ingress prio proto
  = transact k (bytes_of_filter_del_req
                  (tcFilterDelDev_req NRF ifIndex ingress prio proto)).
Proof. reflexivity. Qed.

(** X7: whatever their arguments and whatever the kernel answers, the
    three entry points return a value: none reads outside its request or
    outside the reply buffer. *)
Theorem builders_stay_in_bounds
    (NETLINK_REQUEST_FLAGS : Z) (k : kernel)
    (ifIndex nlMsgType nlMsgFlags bpfFd prio proto : Z)
    (ethernet ingress ipv6 : bool) :
  (exists code,
      doTcQdiscClsact NETLINK_REQUEST_FLAGS k ifIndex nlMsgType nlMsgFlags
      = Some code)
  /\ (exists code,
         tcFilterAddDevBpf NETLINK_REQUEST_FLAGS k ifIndex bpfFd
           ethernet ingress ipv6 = Some code)
  /\ (exists code,
         tcFilterDelDev NETLINK_REQUEST_FLAGS k ifIndex ingress prio proto
         = Some code).
Proof.
  rewrite doTcQdiscClsact_transact, tcFilterAddDevBpf_transact,
    tcFilterDelDev_transact.
  repeat split; apply transact_in_bounds.
Qed.

(** ** The requests, further *)

(** X8: the detach request for priority 1 and the protocol of an attach
    request has the same TC body as that attach request (interface,
    handle, parent, info): it names the filter that [tcFilterAddDevBpf]
    attached on the same hook. *)
Theorem detach_names_attached_filter
    (NETLINK_REQUEST_FLAGS ifIndex bpfFd : Z) (ethernet ingress ipv6 : bool) :
  slice (bytes_of_filter_add_req
           (tcFilterAddDevBpf_req NETLINK_REQUEST_FLAGS ifIndex bpfFd
              ethernet ingress ipv6))
    offsetof_tcmsg (Z.to_nat sizeof_tcmsg)
  = slice (bytes_of_filter_del_req
             (tcFilterDelDev_req NETLINK_REQUEST_FLAGS ifIndex ingress
                1 (attached_proto ipv6)))
      offsetof_tcmsg (Z.to_nat sizeof_tcmsg).
Proof.
  expose_request. abstract_field 4%nat ifIndex Ei.
  destruct ethernet, ingress, ipv6; reflexivity.
Qed.

(** X9: the qdisc that [doTcQdiscClsact] addresses has the handle
    ffff:0 under the clsact root, and the parent of every filter request
    is in that qdisc: its major number is that of the handle and its
    minor number is the ingress or the egress hook. *)
Theorem filters_hang_under_clsact
    (NETLINK_REQUEST_FLAGS ifIndex nlMsgType nlMsgFlags bpfFd prio proto : Z)
    (ethernet ingress ipv6 : bool) :
  let q := bytes_of_qdisc_req
             (doTcQdiscClsact_req NETLINK_REQUEST_FLAGS ifIndex
                nlMsgType nlMsgFlags) in
  let a := bytes_of_filter_add_req
             (tcFilterAddDevBpf_req NETLINK_REQUEST_FLAGS ifIndex bpfFd
                ethernet ingress ipv6) in
  let d := bytes_of_filter_del_req
             (tcFilterDelDev_req NETLINK_REQUEST_FLAGS ifIndex ingress
                prio proto) in
  let major := option_map (fun h => Z.land h TC_H_MAJ_MASK) in
  let minor := option_map (fun h => Z.land h TC_H_MIN_MASK) in
  load q offsetof_tcm_handle 4 = Some 0xFFFF0000
  /\ load q offsetof_tcm_parent 4 = Some TC_H_CLSACT
  /\ major (load a offsetof_tcm_parent 4) = load q offsetof_tcm_handle 4
  /\ major (load d offsetof_tcm_parent 4) = load q offsetof_tcm_handle 4
  /\ minor (load a offsetof_tcm_parent 4)
     = Some (if ingress then TC_H_MIN_INGRESS else TC_H_MIN_EGRESS)
  /\ minor (load d offsetof_tcm_parent 4)
     = Some (if ingress then TC_H_MIN_INGRESS else TC_H_MIN_EGRESS)
  /\ load a offsetof_tcm_handle 4 = Some TC_H_UNSPEC
  /\ load d offsetof_tcm_handle 4 = Some TC_H_UNSPEC.
Proof.
  cbv zeta. expose_request. abstract_field 4%nat ifIndex Ei.
  destruct ethernet, ingress; repeat split; reflexivity.
Qed.

Lemma byte_of_Z_eq a b :
  (forall i, 0 <= i < 8 -> Z.testbit a i = Z.testbit b i) ->
  byte.of_Z a = byte.of_Z b.
Proof.
  intros H. apply byte.unsigned_inj. rewrite !byte.unsigned_of_Z.
  unfold byte.wrap. apply Z.bits_inj'. intros i Hi.
  destruct (Z.lt_ge_cases i 8) as [Hlt | Hge].
  - rewrite !Z.mod_pow2_bits_low by lia. apply H. lia.
  - rewrite !Z.mod_pow2_bits_high by lia. reflexivity.
Qed.

Lemma testbit_255 j : Z.testbit 255 j = (0 <=? j) && (j <? 8).
Proof.
  change 255 with (Z.ones 8).
  destruct (Z.leb_spec 0 j); [|now rewrite Z.testbit_neg_r by lia].
  destruct (Z.ltb_spec j 8).
  - apply Z.ones_spec_low. lia.
  - apply Z.ones_spec_high. lia.
Qed.

(** Equality of two bytes cut out of bitwise expressions, bit by bit. *)
Ltac byte_bits :=
  let i := fresh "i" in
  let Hi := fresh "Hi" in
  apply byte_of_Z_eq; intros i Hi;
  unfold C.to_u32, C.htons;
  rewrite ?Z.shiftr_shiftr by lia;
  rewrite ?Z.shiftr_spec by lia;
  rewrite ?Z.mod_pow2_bits_low by lia;
  rewrite !Z.lor_spec, !Z.land_spec;
  rewrite ?Z.shiftl_spec by lia;
  rewrite ?Z.land_spec, ?Z.shiftr_spec by lia;
  rewrite ?testbit_255;
  repeat match goal with
         | |- context [?a <? 8] =>
             let E := fresh in destruct (Z.ltb_spec a 8) as [E|E]; try lia
         | |- context [0 <=? ?a] =>
             let E := fresh in destruct (Z.leb_spec 0 a) as [E|E]; try lia
         end;
  repeat match goal with
         | |- context [Z.testbit ?x ?j] =>
             rewrite (Z.testbit_neg_r x j) by lia
         end;
  rewrite ?andb_true_r, ?andb_false_r, ?orb_false_r, ?orb_false_l;
  try reflexivity; try (f_equal; lia).

Lemma info_bytes prio proto :
  le_split 4 (C.to_u32 (Z.lor (Z.shiftl prio 16) (C.htons proto)))
  = [byte.of_Z (Z.shiftr proto 8); byte.of_Z proto;
     byte.of_Z prio; byte.of_Z (Z.shiftr prio 8)].
Proof.
  set (w := C.to_u32 (Z.lor (Z.shiftl prio 16) (C.htons proto))).
  change (le_split 4 w)
    with [byte.of_Z w; byte.of_Z (Z.shiftr w 8);
          byte.of_Z (Z.shiftr (Z.shiftr w 8) 8);
          byte.of_Z (Z.shiftr (Z.shiftr (Z.shiftr w 8) 8) 8)].
  assert (H0 : byte.of_Z w = byte.of_Z (Z.shiftr proto 8))
    by (subst w; byte_bits).
  assert (H1 : byte.of_Z (Z.shiftr w 8) = byte.of_Z proto)
    by (subst w; byte_bits).
  assert (H2 : byte.of_Z (Z.shiftr (Z.shiftr w 8) 8) = byte.of_Z prio)
    by (subst w; byte_bits).
  assert (H3 : byte.of_Z (Z.shiftr (Z.shiftr (Z.shiftr w 8) 8) 8)
               = byte.of_Z (Z.shiftr prio 8))
    by (subst w; byte_bits).
  now rewrite H0, H1, H2, H3.
Qed.

(** X10: in every detach request the info field is laid out as the
    protocol in network byte order (high byte first) followed by the
    priority in host order (low byte first), each taken on 16 bits,
    whatever the priority and the protocol. *)
Theorem detach_info_layout
    (NETLINK_REQUEST_FLAGS ifIndex prio proto : Z) (ingress : bool) :
  slice (bytes_of_filter_del_req
           (tcFilterDelDev_req NETLINK_REQUEST_FLAGS ifIndex ingress
              prio proto))
    offsetof_tcm_info 4
  = Some [byte.of_Z (Z.shiftr proto 8); byte.of_Z proto;
          byte.of_Z prio; byte.of_Z (Z.shiftr prio 8)].
Proof.
  expose_request.
  change (slice ?b offsetof_tcm_info 4)
    with (Some (le_split 4
                  (C.to_u32 (Z.lor (Z.shiftl prio 16) (C.htons proto))))).
  now rewrite info_bytes.
Qed.

Lemma to_int_of_int z :
  - 2 ^ 31 <= z < 2 ^ 31 -> C.to_int (z mod 2 ^ 32) = z.
Proof.
  intros Hz. unfold C.to_int, C.to_u32. rewrite Z.mod_mod by lia.
  destruct (Z.neg_nonneg_cases z) as [Hneg | Hpos].
  - replace (z mod 2 ^ 32) with (z + 2 ^ 32).
    + destruct (Z.ltb_spec (z + 2 ^ 32) (2 ^ 31)); lia.
    + apply Z.mod_unique with (q := -1); lia.
  - rewrite Z.mod_small by lia.
    destruct (Z.ltb_spec z (2 ^ 31)); lia.
Qed.

(** Reads the field [ifIndex] back, once its bytes are abstracted. *)
Ltac read_back_ifindex ifIndex :=
  let E := fresh "E" in
  expose_request; abstract_field 4%nat ifIndex E;
  match type of E with
  | ?l = _ =>
      change (load ?b offsetof_tcm_ifindex 4) with (Some (le_combine l))
  end;
  rewrite E, le_combine_split; cbn [option_map]; f_equal.

(** X11: every request carries the interface index it was built for:
    for every [int] value of [ifIndex], the [tcm_ifindex] field of each
    of the three requests reads back, as an [int], as [ifIndex]. *)
Theorem ifindex_round_trip
    (NETLINK_REQUEST_FLAGS ifIndex nlMsgType nlMsgFlags bpfFd prio proto : Z)
    (ethernet ingress ipv6 : bool) :
  - 2 ^ 31 <= ifIndex < 2 ^ 31 ->
  option_map C.to_int
    (load (bytes_of_qdisc_req
             (doTcQdiscClsact_req NETLINK_REQUEST_FLAGS ifIndex
                nlMsgType nlMsgFlags))
       offsetof_tcm_ifindex 4) = Some ifIndex
  /\ option_map C.to_int
       (load (bytes_of_filter_add_req
                (tcFilterAddDevBpf_req NETLINK_REQUEST_FLAGS ifIndex bpfFd
                   ethernet ingress ipv6))
          offsetof_tcm_ifindex 4) = Some ifIndex
  /\ option_map C.to_int
       (load (bytes_of_filter_del_req
                (tcFilterDelDev_req NETLINK_REQUEST_FLAGS ifIndex ingress
                   prio proto))
          offsetof_tcm_ifindex 4) = Some ifIndex.
Proof.
  intros Hint.
  split; [|split]; read_back_ifindex ifIndex; now apply to_int_of_int.
Qed.

(** The theorem at work on the interface index -1. *)
Lemma ifindex_round_trip_witness :
  option_map C.to_int
    (load (bytes_of_qdisc_req
             (doTcQdiscClsact_req example_request_flags (-1)
                RTM_NEWQDISC 0))
       offsetof_tcm_ifindex 4) = Some (-1)
  /\ option_map C.to_int
       (load (bytes_of_filter_add_req
                (tcFilterAddDevBpf_req example_request_flags (-1) 7
                   true true true))
          offsetof_tcm_ifindex 4) = Some (-1)
  /\ option_map C.to_int
       (load (bytes_of_filter_del_req
                (tcFilterDelDev_req example_request_flags (-1) true
                   1 ETH_P_IPV6))
          offsetof_tcm_ifindex 4) = Some (-1).
Proof.
  apply (ifindex_round_trip example_request_flags (-1) RTM_NEWQDISC 0 7
           1 ETH_P_IPV6 true true true).
  lia.
Defined.

(** X12: in an attach request the [ipv6] argument decides the two
    protocol bytes of the info field and nothing else: they are 86 DD
    for IPv6 and 08 00 for IPv4, the ethertype in network byte order,
    and every other byte of the two requests is the same; the two bytes
    after them hold the priority 1. *)
Theorem ipv6_selects_ethertype_only
    (NETLINK_REQUEST_FLAGS ifIndex bpfFd : Z) (ethernet ingress : bool) :
  let v4 := bytes_of_filter_add_req
              (tcFilterAddDevBpf_req NETLINK_REQUEST_FLAGS ifIndex bpfFd
                 ethernet ingress false) in
  let v6 := bytes_of_filter_add_req
              (tcFilterAddDevBpf_req NETLINK_REQUEST_FLAGS ifIndex bpfFd
                 ethernet ingress true) in
  firstn offsetof_tcm_info v4 = firstn offsetof_tcm_info v6
  /\ skipn (offsetof_tcm_info + 2) v4 = skipn (offsetof_tcm_info + 2) v6
  /\ slice v4 offsetof_tcm_info 2 = Some [Byte.x08; Byte.x00]
  /\ slice v6 offsetof_tcm_info 2 = Some [Byte.x86; Byte.xdd]
  /\ slice v4 (offsetof_tcm_info + 2) 2 = Some [Byte.x01; Byte.x00].
Proof.
  cbv zeta. expose_request.
  abstract_field 4%nat ifIndex Ei.
  abstract_field 4%nat (C.to_u32 bpfFd) Ed.
  abstract_field 2%nat
    (Z.lor (Z.lor NETLINK_REQUEST_FLAGS NLM_F_EXCL) NLM_F_CREATE) Ef.
  destruct ethernet, ingress; repeat split; reflexivity.
Qed.

Lemma testbit_has_flag f n :
  0 <= n -> Z.testbit f n = true -> has_flag f (2 ^ n) = true.
Proof.
  intros Hn Hbit. unfold has_flag. apply Z.eqb_eq.
  apply Z.bits_inj'. intros i Hi.
  rewrite Z.land_spec, Z.pow2_bits_eqb by lia.
  destruct (Z.eqb_spec n i) as [<- | Hne].
  - now rewrite Hbit.
  - apply andb_false_r.
Qed.

Lemma flag_survives (NRF c n : Z) :
  0 <= n < 16 ->
  Z.testbit c n = true ->
  has_flag (Z.lor NRF c mod 2 ^ 16) (2 ^ n) = true.
Proof.
  intros Hn Hbit. apply testbit_has_flag; [lia|].
  rewrite Z.mod_pow2_bits_low by lia.
  rewrite Z.lor_spec, Hbit. apply orb_true_r.
Qed.

Lemma qdisc_flags_field NRF op ifIndex :
  load (qdisc_request NRF op ifIndex) offsetof_nlmsg_flags 2
  = Some (Z.lor NRF (nlMsgFlags_of op) mod 2 ^ 16).
Proof.
  expose_request.
  transitivity
    (Some (C.to_u16 (Z.lor NRF (nlMsgFlags_of op)) mod 2 ^ (Z.of_nat 2 * 8))).
  - apply (load_field (le_split 4 _ ++ le_split 2 _) 2). reflexivity.
  - unfold C.to_u16. now rewrite Z.mod_mod by discriminate.
Qed.

Lemma attach_flags_field NRF ifIndex bpfFd ethernet ingress ipv6 :
  load (bytes_of_filter_add_req
          (tcFilterAddDevBpf_req NRF ifIndex bpfFd ethernet ingress ipv6))
    offsetof_nlmsg_flags 2
  = Some (Z.lor NRF (Z.lor NLM_F_EXCL NLM_F_CREATE) mod 2 ^ 16).
Proof.
  expose_request. rewrite Z.lor_assoc.
  apply (load_field (le_split 4 _ ++ le_split 2 _) 2). reflexivity.
Qed.

(** X13: whatever NETLINK_REQUEST_FLAGS is, the header of an Add qdisc
    request has NLM_F_EXCL and NLM_F_CREATE set, that of a Replace qdisc
    request NLM_F_CREATE and NLM_F_REPLACE, and that of an attach request
    NLM_F_EXCL and NLM_F_CREATE. *)
Theorem create_flags_are_set
    (NETLINK_REQUEST_FLAGS ifIndex bpfFd : Z) (ethernet ingress ipv6 : bool) :
  has_flags (qdisc_request NETLINK_REQUEST_FLAGS QdiscAdd ifIndex)
    [NLM_F_EXCL; NLM_F_CREATE] = true
  /\ has_flags (qdisc_request NETLINK_REQUEST_FLAGS QdiscReplace ifIndex)
       [NLM_F_CREATE; NLM_F_REPLACE] = true
  /\ has_flags (bytes_of_filter_add_req
                  (tcFilterAddDevBpf_req NETLINK_REQUEST_FLAGS ifIndex bpfFd
                     ethernet ingress ipv6))
       [NLM_F_EXCL; NLM_F_CREATE] = true.
Proof.
  unfold has_flags. rewrite !qdisc_flags_field, attach_flags_field.
  cbn [forallb].
  change NLM_F_REPLACE with (2 ^ 8).
  change NLM_F_EXCL with (2 ^ 9).
  change NLM_F_CREATE with (2 ^ 10).
  rewrite !(flag_survives _ _ 8), !(flag_survives _ _ 9),
    !(flag_survives _ _ 10) by (reflexivity || lia).
  repeat split.
Qed.

(** X14: the options of every attach request read back as what the call
    was given: the descriptor [bpfFd] (any non-negative [int]), the name
    selected by [ethernet] and [ingress], and the direct-action flag, in
    the sub-attributes TCA_BPF_FD, TCA_BPF_NAME and TCA_BPF_FLAGS in that
    order. *)
Theorem attach_options_round_trip
    (NETLINK_REQUEST_FLAGS ifIndex bpfFd : Z) (ethernet ingress ipv6 : bool) :
  0 <= bpfFd < 2 ^ 31 ->
  let opts := read_options
                (bytes_of_filter_add_req
                   (tcFilterAddDevBpf_req NETLINK_REQUEST_FLAGS ifIndex bpfFd
                      ethernet ingress ipv6)) in
  option_map (map a_type) opts
  = Some [TCA_BPF_FD; TCA_BPF_NAME; TCA_BPF_FLAGS]
  /\ read_u32_attribute TCA_BPF_FD opts = Some bpfFd
  /\ read_string_attribute TCA_BPF_NAME opts
     = Some (list_byte_of_string (NAME ethernet ingress))
  /\ read_u32_attribute TCA_BPF_FLAGS opts = Some TCA_BPF_FLAG_ACT_DIRECT.
Proof.
  intros Hfd. cbv zeta. expose_request.
  abstract_field 4%nat ifIndex Ei.
  abstract_field 4%nat (C.to_u32 bpfFd) Ed.
  abstract_field 2%nat
    (Z.lor (Z.lor NETLINK_REQUEST_FLAGS NLM_F_EXCL) NLM_F_CREATE) Ef.
  assert (Hdec : le_combine (le_split 4 (C.to_u32 bpfFd)) = bpfFd).
  { rewrite le_combine_split. unfold C.to_u32.
    rewrite Z.mod_mod by discriminate. apply Z.mod_small. lia. }
  rewrite <- Ed in Hdec.
  split; [|split; [|split]].
  - destruct ethernet, ingress, ipv6; reflexivity.
  - rewrite <- Hdec. destruct ethernet, ingress, ipv6; reflexivity.
  - destruct ethernet, ingress, ipv6; reflexivity.
  - destruct ethernet, ingress, ipv6; reflexivity.
Qed.

(** The theorem at work on the descriptor 42. *)
Lemma attach_options_round_trip_witness :
  let opts := read_options
                (bytes_of_filter_add_req
                   (tcFilterAddDevBpf_req example_request_flags 5 42
                      true false true)) in
  option_map (map a_type) opts
  = Some [TCA_BPF_FD; TCA_BPF_NAME; TCA_BPF_FLAGS]
  /\ read_u32_attribute TCA_BPF_FD opts = Some 42
  /\ read_string_attribute TCA_BPF_NAME opts
     = Some (list_byte_of_string (NAME true false))
  /\ read_u32_attribute TCA_BPF_FLAGS opts = Some TCA_BPF_FLAG_ACT_DIRECT.
Proof.
  apply (attach_options_round_trip example_request_flags 5 42 true false true).
  lia.
Defined.
